(** * Sensora backend: the IFRA compliance validator and the Physio-RAG engine

    A shallow embedding of [app/chemistry/ifra_validator.py] and
    [app/core/physio_rag.py], and the properties of the two engines.

    Python values are modelled as follows.
    - [float] is IEEE binary64, here the primitive [float] of Rocq; a JSON
      integer read by the validator is taken at its float value.
    - [str] is [string]; [str.lower] is the ASCII lowering.
    - a [dict] with a fixed set of keys is a record whose optional keys are
      [option] fields, read with the default the source passes to [.get]; a
      key that is present holds a value of the type the record gives it;
      the user profile, looked up by a computed key, is a [gmap].
    - a [dict] built by a comprehension and then iterated is an association
      list in insertion order.
    - an exception is a [Raise] in the [result] monad. *)

From Stdlib Require Import ZArith List String Ascii Bool Lia Floats.
From stdpp Require Import base option strings gmap.
Import ListNotations.
Set Warnings "-inexact-float".

(* ===================================================================== *)
(** * Python primitives *)
(* ===================================================================== *)

Module Py.

Inductive exn := TypeError | AttributeError | ZeroDivisionError | ImportError.

Inductive result (A : Type) :=
  | Ok (a : A)
  | Raise (e : exn).
Arguments Ok {A} a.
Arguments Raise {A} e.

#[export] Instance result_ret : MRet result := fun A a => Ok a.
#[export] Instance result_bind : MBind result :=
  fun A B f m => match m with Ok a => f a | Raise e => Raise e end.

(** [for x in l: acc = f(acc, x)] where the body may raise. *)
Fixpoint for_each {A B : Type} (f : A -> B -> result A) (l : list B) (acc : A)
  : result A :=
  match l with
  | [] => Ok acc
  | x :: l' => acc' ← f acc x; for_each f l' acc'
  end.

(** ** Strings *)

Definition lower_ascii (c : ascii) : ascii :=
  let n := nat_of_ascii c in
  if (65 <=? n)%nat && (n <=? 90)%nat then ascii_of_nat (n + 32) else c.

(** [s.lower()] on ASCII text: the letters A to Z are lowered and every
    other byte is kept, so a name with letters outside ASCII is lowered by
    Python where it is left as it is here. *)
Fixpoint lower (s : string) : string :=
  match s with
  | EmptyString => EmptyString
  | String c s' => String (lower_ascii c) (lower s')
  end.

(** [a in b] on strings: [a] occurs in [b] as a contiguous substring. *)
Fixpoint str_in (a b : string) : bool :=
  String.prefix a b ||
  match b with
  | EmptyString => false
  | String _ b' => str_in a b'
  end.

(** ** Ordered dictionaries, as built by a dict comprehension *)

(** [d[k] = v]: an existing key keeps its position and takes the new value,
    a new key goes to the end. *)
Fixpoint dict_set {V : Type} (k : string) (v : V) (d : list (string * V))
  : list (string * V) :=
  match d with
  | [] => [(k, v)]
  | (k', v') :: d' =>
      if String.eqb k' k then (k, v) :: d' else (k', v') :: dict_set k v d'
  end.

(** [d.get(k)] *)
Fixpoint dict_get {V : Type} (k : string) (d : list (string * V)) : option V :=
  match d with
  | [] => None
  | (k', v) :: d' => if String.eqb k' k then Some v else dict_get k d'
  end.

(** [{key(s): s for s in l}] *)
Definition dict_of {V : Type} (key : V -> string) (l : list V)
  : list (string * V) :=
  fold_left (fun d s => dict_set (key s) s d) l [].

(** ** Dynamic values (what [json.load] produces, objects apart) *)

#[warnings="-register-all"]
Inductive pyvalue :=
  | VNone
  | VBool (b : bool)
  | VInt (z : Z)
  | VFloat (f : float)
  | VStr (s : string)
  | VList (l : list pyvalue).

(** The exact value of a Python number: Python compares an [int] with a
    [float] without rounding either. [XFin m e] is [m * 2^e]. *)
Inductive xreal :=
  | XNaN
  | XInf (negative : bool)
  | XFin (m e : Z).

Definition xreal_of_float (f : float) : xreal :=
  match Prim2SF f with
  | S754_zero _ => XFin 0 0
  | S754_infinity s => XInf s
  | S754_nan => XNaN
  | S754_finite s m e => XFin (if s then Z.neg m else Z.pos m) e
  end.

(** [bool] is a subclass of [int]: [True] is 1 and [False] is 0. *)
Definition as_number (v : pyvalue) : option xreal :=
  match v with
  | VBool b => Some (XFin (if b then 1 else 0) 0)
  | VInt z => Some (XFin z 0)
  | VFloat f => Some (xreal_of_float f)
  | _ => None
  end.

(** [isinstance(v, (int, float))] *)
Definition isinstance_number (v : pyvalue) : bool :=
  match v with
  | VBool _ | VInt _ | VFloat _ => true
  | _ => false
  end.

(** [isinstance(v, list)] *)
Definition isinstance_list (v : pyvalue) : bool :=
  match v with
  | VList _ => true
  | _ => false
  end.

Definition xreal_compare (a b : xreal) : option comparison :=
  match a, b with
  | XNaN, _ | _, XNaN => None
  | XInf s1, XInf s2 =>
      Some (if s1 then (if s2 then Eq else Lt) else (if s2 then Gt else Eq))
  | XInf s, XFin _ _ => Some (if s then Lt else Gt)
  | XFin _ _, XInf s => Some (if s then Gt else Lt)
  | XFin m1 e1, XFin m2 e2 =>
      let e := Z.min e1 e2 in
      Some (m1 * 2 ^ (e1 - e) ?= m2 * 2 ^ (e2 - e))%Z
  end.

Definition xreal_eqb (a b : xreal) : bool :=
  match xreal_compare a b with Some Eq => true | _ => false end.

Definition xreal_ltb (a b : xreal) : bool :=
  match xreal_compare a b with Some Lt => true | _ => false end.

(** [a == b]; never raises on these values. *)
Fixpoint py_eq (a b : pyvalue) {struct a} : bool :=
  match a, b with
  | VNone, VNone => true
  | VStr s, VStr t => String.eqb s t
  | VList l, VList m =>
      (fix go (l m : list pyvalue) {struct l} : bool :=
         match l, m with
         | [], [] => true
         | x :: l', y :: m' => py_eq x y && go l' m'
         | _, _ => false
         end) l m
  | _, _ =>
      match as_number a, as_number b with
      | Some x, Some y => xreal_eqb x y
      | _, _ => false
      end
  end.

(** [a < b]: defined between two numbers, two strings or two lists, a
    [TypeError] otherwise. *)
Fixpoint py_lt (a b : pyvalue) {struct a} : result bool :=
  match a, b with
  | VStr s, VStr t => Ok (String.ltb s t)
  | VList l, VList m =>
      (fix go (l m : list pyvalue) {struct l} : result bool :=
         match l, m with
         | [], [] => Ok false
         | [], _ :: _ => Ok true
         | _ :: _, [] => Ok false
         | x :: l', y :: m' => if py_eq x y then go l' m' else py_lt x y
         end) l m
  | _, _ =>
      match as_number a, as_number b with
      | Some x, Some y => Ok (xreal_ltb x y)
      | _, _ => Raise TypeError
      end
  end.

(** [a > b] *)
Definition py_gt (a b : pyvalue) : result bool := py_lt b a.

Definition xreal_leb (a b : xreal) : bool :=
  match xreal_compare a b with Some Lt | Some Eq => true | _ => false end.

(** [a <= b], defined where [a < b] is. *)
Fixpoint py_le (a b : pyvalue) {struct a} : result bool :=
  match a, b with
  | VStr s, VStr t => Ok (String.leb s t)
  | VList l, VList m =>
      (fix go (l m : list pyvalue) {struct l} : result bool :=
         match l, m with
         | [], _ => Ok true
         | _ :: _, [] => Ok false
         | x :: l', y :: m' => if py_eq x y then go l' m' else py_le x y
         end) l m
  | _, _ =>
      match as_number a, as_number b with
      | Some x, Some y => Ok (xreal_leb x y)
      | _, _ => Raise TypeError
      end
  end.

(** [a >= b] *)
Definition py_ge (a b : pyvalue) : result bool := py_le b a.

(** ** Floats *)

(** [max(a, b)]: the second argument when it is greater, else the first. *)
Definition py_max (a b : float) : float :=
  if PrimFloat.ltb a b then b else a.

(** [min(a, b)]: the second argument when it is smaller, else the first. *)
Definition py_min (a b : float) : float :=
  if PrimFloat.ltb b a then b else a.

(** [a / b] on floats *)
Definition py_div (a b : float) : result float :=
  if PrimFloat.eqb b 0 then Raise ZeroDivisionError else Ok (a / b)%float.

(** The truth value of a float: false for [0.0] and [-0.0]. *)
Definition float_truthy (f : float) : bool := negb (PrimFloat.eqb f 0).

(** The truth value of a string: false for the empty string. *)
Definition str_truthy (s : string) : bool :=
  match s with
  | EmptyString => false
  | String _ _ => true
  end.

(** [v in c]: membership in a list, substring of a string, a [TypeError]
    otherwise. *)
Definition py_in (v c : pyvalue) : result bool :=
  match c with
  | VList l => Ok (existsb (fun x => py_eq x v) l)
  | VStr s => match v with VStr t => Ok (str_in t s) | _ => Raise TypeError end
  | _ => Raise TypeError
  end.

(** The characters of a string, one string each. *)
Fixpoint chars (s : string) : list pyvalue :=
  match s with
  | EmptyString => []
  | String c s' => VStr (String c EmptyString) :: chars s'
  end.

(** [for x in v] on the values of [pyvalue]: the elements of a list, the
    characters of a string, a [TypeError] for [None], a boolean or a
    number. Python also iterates dicts, tuples and sets, which [pyvalue]
    does not have. *)
Definition py_iter (v : pyvalue) : result (list pyvalue) :=
  match v with
  | VList l => Ok l
  | VStr s => Ok (chars s)
  | _ => Raise TypeError
  end.

(** [v is None] *)
Definition is_none (v : pyvalue) : bool :=
  match v with
  | VNone => true
  | _ => false
  end.

(** [l.sort(key=key, reverse=True)] for float keys: the stable sort into
    descending order, elements with equal keys staying in their order. *)
Fixpoint insert_desc {A : Type} (key : A -> float) (x : A) (l : list A)
  : list A :=
  match l with
  | [] => [x]
  | y :: l' =>
      if PrimFloat.ltb (key x) (key y) then y :: insert_desc key x l'
      else x :: y :: l'
  end.

Definition sort_desc {A : Type} (key : A -> float) (l : list A) : list A :=
  fold_right (insert_desc key) [] l.

(** [matched[:n]] *)
Definition slice_to {A : Type} (n : Z) (l : list A) : list A :=
  if (0 <=? n)%Z then firstn (Z.to_nat n) l
  else firstn (length l - Z.to_nat (- n)) l.

(** What an f-string writes for a value; the text itself is left open. *)
Class Formatting := {
  str_float : float -> string;
  fmt_2f : float -> string;
  str_int : nat -> string;
  str_value : pyvalue -> string
}.

End Py.

(* ===================================================================== *)
(** * The IFRA compliance validator ([ifra_validator.py]) *)
(* ===================================================================== *)

Module IFRA.
Import Py.

(** ** The standards file ([ifra_standards.json]) *)

(** An entry of [restricted_substances]. The code reads 'name', 'cas',
    'max_concentration_cat1' and 'reason'; 'max_concentration_cat2' is a key
    of the file that the code never reads. *)
Record RestrictedSubstance := {
  rs_name : string;
  rs_cas : option string;
  rs_max_concentration_cat1 : option float;
  rs_max_concentration_cat2 : option float;
  rs_reason : option string
}.

(** An entry of [allergens_declaration_required]; 'threshold_cat2' is
    never read. *)
Record Allergen := {
  al_name : string;
  al_cas : option string;
  al_threshold_cat1 : option float;
  al_threshold_cat2 : option float
}.

(** An entry of [phototoxicity_limits]. *)
Record PhototoxLimit := {
  pt_name : string;
  pt_max_concentration_cat1 : option float;
  pt_reason : option string
}.

Record AllergenLimit := {
  max_total_percentage : option float
}.

(** [total_allergen_limits]; only 'cat1_leave_on' is ever read. *)
Record TotalAllergenLimits := {
  cat1_leave_on : option AllergenLimit;
  cat2_rinse_off : option AllergenLimit
}.

(** The dict held in [self._standards]; a key that is absent is [None]. *)
Record Standards := {
  restricted_substances : option (list RestrictedSubstance);
  allergens_declaration_required : option (list Allergen);
  phototoxicity_limits : option (list PhototoxLimit);
  total_allergen_limits : option TotalAllergenLimits
}.

(** ** Values of the validator *)

Record IFRAViolation := {
  ingredient_name : string;
  cas_number : option string;
  violation_type : string;
  current_concentration : float;
  max_allowed : float;
  severity : string;
  recommendation : string
}.

(** An element of [allergens_to_declare]. *)
Record Declaration := {
  decl_name : string;
  decl_cas : option string;
  decl_concentration : float;
  decl_threshold : float
}.

Record IFRAReport := {
  is_compliant : bool;
  violations : list IFRAViolation;
  allergens_to_declare : list Declaration;
  total_allergen_load : float;
  product_category : string;
  summary : string
}.

(** An element of [ingredients]: a dict with 'name', 'concentration' and
    an optional 'cas'. *)
Record Ingredient := {
  ing_name : option string;
  ing_concentration : option float;
  ing_cas : option string
}.

Record IFRAValidator := {
  _standards : Standards;
  _loaded : bool
}.

(** [IFRAValidator.__init__]: [_standards = {}], [_loaded = False]. *)
Definition init : IFRAValidator :=
  {| _standards := {| restricted_substances := None;
                      allergens_declaration_required := None;
                      phototoxicity_limits := None;
                      total_allergen_limits := None |};
     _loaded := false |}.

(** [_load_standards]. [file] is what [ifra_standards.json] parses to, or
    [None] when the path does not exist. *)
Definition _load_standards (file : option Standards) (self : IFRAValidator)
  : IFRAValidator :=
  if _loaded self then self
  else
    match file with
    | None =>
        {| _standards := {| restricted_substances := Some [];
                            allergens_declaration_required := Some [];
                            phototoxicity_limits := Some [];
                            total_allergen_limits := None |};
           _loaded := true |}
    | Some data => {| _standards := data; _loaded := true |}
    end.

Section Validate.
Context `{Formatting}.

(** The three accumulators of the loop over the ingredients. *)
Record Acc := {
  acc_violations : list IFRAViolation;
  acc_declared : list Declaration;
  acc_total : float
}.

(** "Check restricted substances" *)
Definition check_restricted (restricted_map : list (string * RestrictedSubstance))
    (name name_lower : string) (concentration : float)
    (violations : list IFRAViolation) : list IFRAViolation :=
  match dict_get name_lower restricted_map with
  | Some restricted =>
      let max_conc := default 0%float (rs_max_concentration_cat1 restricted) in
      if PrimFloat.eqb max_conc 0 then
        violations ++
        [ {| ingredient_name := name;
             cas_number := rs_cas restricted;
             violation_type := "banned";
             current_concentration := concentration;
             max_allowed := 0;
             severity := "critical";
             recommendation :=
               "Remove " +:+ name +:+ " - banned under IFRA. " +:+
               default "" (rs_reason restricted) |} ]
      else if PrimFloat.ltb max_conc concentration then
        violations ++
        [ {| ingredient_name := name;
             cas_number := rs_cas restricted;
             violation_type := "over_limit";
             current_concentration := concentration;
             max_allowed := max_conc;
             severity := "critical";
             recommendation :=
               "Reduce " +:+ name +:+ " to max " +:+ str_float max_conc +:+
               "%. " +:+ default "" (rs_reason restricted) |} ]
      else violations
  | None => violations
  end.

(** One turn of "Check phototoxicity limits". *)
Definition check_phototox (name name_lower : string) (concentration : float)
    (violations : list IFRAViolation) (item : string * PhototoxLimit)
  : list IFRAViolation :=
  let '(phototox_name, phototox) := item in
  if str_in phototox_name name_lower || str_in name_lower phototox_name then
    let max_conc := default 100%float (pt_max_concentration_cat1 phototox) in
    if PrimFloat.ltb max_conc concentration then
      violations ++
      [ {| ingredient_name := name;
           cas_number := None;
           violation_type := "phototoxicity";
           current_concentration := concentration;
           max_allowed := max_conc;
           severity := "critical";
           recommendation :=
             "Reduce " +:+ name +:+ " to max " +:+ str_float max_conc +:+
             "% for phototoxicity. " +:+ default "" (pt_reason phototox) |} ]
    else violations
  else violations.

(** One turn of "Check allergen declaration". *)
Definition check_allergen (name name_lower : string) (concentration : float)
    (acc : Acc) (item : string * Allergen) : Acc :=
  let '(allergen_name, allergen) := item in
  if str_in allergen_name name_lower || str_in name_lower allergen_name then
    let threshold := default 0.001%float (al_threshold_cat1 allergen) in
    if PrimFloat.eqb threshold 0 then
      {| acc_violations :=
           acc_violations acc ++
           [ {| ingredient_name := name;
                cas_number := al_cas allergen;
                violation_type := "banned";
                current_concentration := concentration;
                max_allowed := 0;
                severity := "critical";
                recommendation := "Remove " +:+ name +:+ " - banned allergen" |} ];
         acc_declared := acc_declared acc;
         acc_total := acc_total acc |}
    else if PrimFloat.leb threshold concentration then
      {| acc_violations := acc_violations acc;
         acc_declared :=
           acc_declared acc ++
           [ {| decl_name := name;
                decl_cas := al_cas allergen;
                decl_concentration := concentration;
                decl_threshold := threshold |} ];
         acc_total := (acc_total acc + concentration)%float |}
    else acc
  else acc.

(** The body of [for ing in ingredients]. *)
Definition check_ingredient
    (restricted_map : list (string * RestrictedSubstance))
    (allergen_map : list (string * Allergen))
    (phototox_map : list (string * PhototoxLimit))
    (acc : Acc) (ing : Ingredient) : Acc :=
  let name := default "" (ing_name ing) in
  let name_lower := lower name in
  let concentration := default 0%float (ing_concentration ing) in
  let violations :=
    check_restricted restricted_map name name_lower concentration
      (acc_violations acc) in
  let violations :=
    fold_left (check_phototox name name_lower concentration)
      phototox_map violations in
  fold_left (check_allergen name name_lower concentration) allergen_map
    {| acc_violations := violations;
       acc_declared := acc_declared acc;
       acc_total := acc_total acc |}.

(** [validate_formula]: the validator after the call and the report. *)
Definition validate_formula (file : option Standards) (self : IFRAValidator)
    (ingredients : list Ingredient) (product_category : string)
  : IFRAValidator * IFRAReport :=
  let self := _load_standards file self in
  let restricted_map :=
    dict_of (fun s => lower (rs_name s))
      (default [] (restricted_substances (_standards self))) in
  let allergen_map :=
    dict_of (fun a => lower (al_name a))
      (default [] (allergens_declaration_required (_standards self))) in
  let phototox_map :=
    dict_of (fun p => lower (pt_name p))
      (default [] (phototoxicity_limits (_standards self))) in
  let acc :=
    fold_left (check_ingredient restricted_map allergen_map phototox_map)
      ingredients
      {| acc_violations := []; acc_declared := []; acc_total := 0 |} in
  let total_allergen_load := acc_total acc in
  let allergens_to_declare := acc_declared acc in
  let max_total :=
    default 1.0%float
      (limits ← total_allergen_limits (_standards self);
       cat1 ← cat1_leave_on limits;
       max_total_percentage cat1) in
  let violations :=
    if PrimFloat.ltb max_total total_allergen_load then
      acc_violations acc ++
      [ {| ingredient_name := "Total Allergens";
           cas_number := None;
           violation_type := "allergen_load";
           current_concentration := total_allergen_load;
           max_allowed := max_total;
           severity := "warning";
           recommendation :=
             "Total allergen load " +:+ fmt_2f total_allergen_load +:+
             "% exceeds " +:+ str_float max_total +:+ "% recommendation" |} ]
    else acc_violations acc in
  let critical_violations :=
    List.filter (fun v => String.eqb (severity v) "critical") violations in
  let is_compliant := Nat.eqb (length critical_violations) 0 in
  let summary :=
    if is_compliant && Nat.eqb (length violations) 0 then
      "Formula is fully IFRA compliant with no issues detected."
    else if is_compliant then
      "Formula is compliant with " +:+ str_int (length violations) +:+
      " warning(s). " +:+ str_int (length allergens_to_declare) +:+
      " allergen(s) require declaration."
    else
      "Formula has " +:+ str_int (length critical_violations) +:+
      " critical violation(s) that must be resolved for IFRA compliance." in
  (self,
   {| is_compliant := is_compliant;
      violations := violations;
      allergens_to_declare := allergens_to_declare;
      total_allergen_load := total_allergen_load;
      product_category := product_category;
      summary := summary |}).

End Validate.

(** [for x in l: if test(x): return x] *)
Definition first_match {A : Type} (test : A -> bool) (l : list A) : option A :=
  List.find test l.

(** [get_max_concentration]: [None] is Python's [None], "not restricted". *)
Definition get_max_concentration (file : option Standards)
    (self : IFRAValidator) (ingredient_name : string)
    (product_category : string) : IFRAValidator * option float :=
  let self := _load_standards file self in
  let name_lower := lower ingredient_name in
  (self,
   match
     first_match (fun restricted => String.eqb (lower (rs_name restricted)) name_lower)
       (default [] (restricted_substances (_standards self)))
   with
   | Some restricted => rs_max_concentration_cat1 restricted
   | None =>
       match
         first_match (fun phototox => str_in (lower (pt_name phototox)) name_lower)
           (default [] (phototoxicity_limits (_standards self)))
       with
       | Some phototox => pt_max_concentration_cat1 phototox
       | None => None
       end
   end).

(** [is_allergen] *)
Definition is_allergen (file : option Standards) (self : IFRAValidator)
    (ingredient_name : string) : IFRAValidator * bool :=
  let self := _load_standards file self in
  let name_lower := lower ingredient_name in
  (self,
   existsb
     (fun allergen =>
        str_in (lower (al_name allergen)) name_lower ||
        str_in name_lower (lower (al_name allergen)))
     (default [] (allergens_declaration_required (_standards self)))).

End IFRA.

(* ===================================================================== *)
(** * The Physio-RAG engine ([physio_rag.py]) *)
(* ===================================================================== *)

Module Rag.
Import Py.

(** [PhysioRule.condition]: a dict read with [.get] at 'parameter',
    'operator' and 'value'. *)
Record Condition := {
  parameter : option string;
  operator : option string;
  value : option pyvalue
}.

Record PhysioRule := {
  id : string;
  condition : Condition;
  target : string;
  action : string;
  factor : option float;
  threshold : option (list (string * pyvalue));
  substitute : option (list (string * pyvalue));
  reasoning : string
}.

Record RetrievedRule := {
  rule : PhysioRule;
  relevance_score : float;
  matched_condition : string
}.

Record SentenceTransformerEmbedding := {
  _model_name : string
}.

(** The ChromaDB collection, an external capability: what its [query]
    answers, as the lists under 'ids' and 'distances'. *)
Record Collection := {
  collection_query : string -> Z -> list string * list float
}.

Record PhysioRAG := {
  _rules : list PhysioRule;
  _collection : option Collection;
  _embedder : option SentenceTransformerEmbedding;
  _initialized : bool
}.

(** What the engine finds around it.
    - [rules_file]: [None] when [physio_rules.json] does not exist, else
      what [data.get('rules')] is in the parsed file.
    - [chromadb]: [None] when [import chromadb] raises [ImportError]; else
      the collection obtained for an embedder and the rules to embed, or
      [None] when an [ImportError] is raised while embedding. *)
Record Env := {
  rules_file : option (option (list PhysioRule));
  chromadb : option (option SentenceTransformerEmbedding ->
                     list PhysioRule -> option Collection)
}.

(** [PhysioRAG.__init__] *)
Definition init : PhysioRAG :=
  {| _rules := []; _collection := None; _embedder := None;
     _initialized := false |}.

(** [_load_rules] *)
Definition _load_rules (env : Env) (self : PhysioRAG) : PhysioRAG :=
  match rules_file env with
  | None =>
      {| _rules := []; _collection := _collection self;
         _embedder := _embedder self; _initialized := _initialized self |}
  | Some data =>
      {| _rules :=
           fold_left (fun rules rule => rules ++ [rule]) (default [] data)
             (_rules self);
         _collection := _collection self;
         _embedder := _embedder self; _initialized := _initialized self |}
  end.

(** [_setup_embedder] *)
Definition _setup_embedder (self : PhysioRAG) : PhysioRAG :=
  {| _rules := _rules self; _collection := _collection self;
     _embedder := Some {| _model_name := "all-MiniLM-L6-v2" |};
     _initialized := _initialized self |}.

(** [_setup_vector_db] *)
Definition _setup_vector_db (env : Env) (self : PhysioRAG) : PhysioRAG :=
  match chromadb env with
  | Some client =>
      {| _rules := _rules self;
         _collection := client (_embedder self) (_rules self);
         _embedder := _embedder self; _initialized := _initialized self |}
  | None =>
      {| _rules := _rules self; _collection := None;
         _embedder := _embedder self; _initialized := _initialized self |}
  end.

(** [initialize] *)
Definition initialize (env : Env) (self : PhysioRAG) (use_vector_db : bool)
  : PhysioRAG :=
  let self := _load_rules env self in
  let self :=
    if use_vector_db then _setup_vector_db env (_setup_embedder self)
    else self in
  {| _rules := _rules self; _collection := _collection self;
     _embedder := _embedder self; _initialized := true |}.

(** [_get_rule_by_id] *)
Definition _get_rule_by_id (self : PhysioRAG) (rule_id : string)
  : option PhysioRule :=
  List.find (fun rule => String.eqb (id rule) rule_id) (_rules self).

Section Engine.
Context `{Formatting}.

(** The part of [query] on 'ph'. *)
Definition ph_parts (user_profile : gmap string pyvalue)
    (query_parts : list string) : result (list string) :=
  match user_profile !! "ph" with
  | Some ph =>
      let query_parts := query_parts ++ ["pH level " +:+ str_value ph] in
      below ← py_lt ph (VFloat 5.2);
      if below : bool then
        Ok (query_parts ++ ["acidic skin chemistry faster evaporation"])
      else
        above ← py_gt ph (VFloat 5.8);
        if above : bool then
          Ok (query_parts ++ ["alkaline skin chemistry slower breakdown"])
        else Ok query_parts
  | None => Ok query_parts
  end.

(** The part of [query] on 'skin_type'; [.lower()] exists on [str] only. *)
Definition skin_parts (user_profile : gmap string pyvalue)
    (query_parts : list string) : result (list string) :=
  match user_profile !! "skin_type" with
  | Some (VStr s) =>
      let skin := lower s in
      let query_parts := query_parts ++ ["skin type " +:+ skin] in
      if String.eqb skin "dry" then
        Ok (query_parts ++ ["low sebum fast absorption"])
      else if String.eqb skin "oily" then
        Ok (query_parts ++ ["high sebum enhanced projection"])
      else Ok query_parts
  | Some _ => Raise AttributeError
  | None => Ok query_parts
  end.

(** The part of [query] on 'temperature'. *)
Definition temperature_parts (user_profile : gmap string pyvalue)
    (query_parts : list string) : result (list string) :=
  match user_profile !! "temperature" with
  | Some temp =>
      let query_parts :=
        query_parts ++ ["body temperature " +:+ str_value temp] in
      above ← py_gt temp (VFloat 37.0);
      if above : bool then Ok (query_parts ++ ["warm skin fast diffusion"])
      else
        below ← py_lt temp (VFloat 36.0);
        if below : bool then
          Ok (query_parts ++ ["cool skin slow evaporation"])
        else Ok query_parts
  | None => Ok query_parts
  end.

(** The part of [query] on 'allergies'. *)
Definition allergy_parts (user_profile : gmap string pyvalue)
    (query_parts : list string) : result (list string) :=
  match user_profile !! "allergies" with
  | Some allergies =>
      items ← py_iter allergies;
      Ok (fold_left
            (fun parts allergy =>
               parts ++ ["allergen sensitivity " +:+ str_value allergy])
            items query_parts)
  | None => Ok query_parts
  end.

(** "Build semantic query from profile", up to [query_text]. *)
Definition build_query_text (user_profile : gmap string pyvalue)
  : result string :=
  query_parts ← ph_parts user_profile [];
  query_parts ← skin_parts user_profile query_parts;
  query_parts ← temperature_parts user_profile query_parts;
  query_parts ← allergy_parts user_profile query_parts;
  Ok (String.concat " " query_parts).

(** The body of the loop of [_vector_query]; [i] is the index that
    [enumerate] gives. *)
Definition vector_hit (self : PhysioRAG) (query_text : string)
    (distances : list float) (acc : nat * list RetrievedRule)
    (rule_id : string) : result (nat * list RetrievedRule) :=
  let '(i, retrieved) := acc in
  match _get_rule_by_id self rule_id with
  | Some rule =>
      let distance := default 1.0%float (nth_error distances i) in
      let denominator := (1.0 + distance)%float in
      if PrimFloat.eqb denominator 0 then Raise ZeroDivisionError
      else
        Ok (S i,
            retrieved ++
            [ {| rule := rule;
                 relevance_score := (1.0 / denominator)%float;
                 matched_condition := query_text |} ])
  | None => Ok (S i, retrieved)
  end.

(** [_vector_query] *)
Definition _vector_query (self : PhysioRAG) (query_text : string)
    (n_results : Z) : result (list RetrievedRule) :=
  match _collection self with
  | None => Ok []
  | Some collection =>
      let '(ids, distances) := collection_query collection query_text n_results in
      acc ← for_each (vector_hit self query_text distances) ids (0%nat, []);
      Ok (snd acc)
  end.

(** The body of the loop of [_keyword_query]. *)
Definition keyword_match (user_profile : gmap string pyvalue)
    (matched : list RetrievedRule) (rule : PhysioRule)
  : result (list RetrievedRule) :=
  let condition := condition rule in
  let param := default "" (parameter condition) in
  let operator := default "" (operator condition) in
  let value := default VNone (value condition) in
  match user_profile !! param with
  | None => Ok matched
  | Some user_value =>
      if is_none value then Ok matched
      else
        matches ←
          (if String.eqb operator "<" && isinstance_number user_value
              && isinstance_number value
           then py_lt user_value value
           else if String.eqb operator ">" && isinstance_number user_value
                   && isinstance_number value
           then py_gt user_value value
           else if String.eqb operator "=="
           then Ok (py_eq user_value value)
           else if String.eqb operator "contains"
                   && isinstance_list user_value
           then py_in value user_value
           else Ok false);
        if matches : bool then
          Ok (matched ++
              [ {| rule := rule;
                   relevance_score := 0.9;
                   matched_condition :=
                     param +:+ " " +:+ operator +:+ " " +:+ str_value value |} ])
        else Ok matched
  end.

(** [_keyword_query] *)
Definition _keyword_query (self : PhysioRAG)
    (user_profile : gmap string pyvalue) (n_results : Z)
  : result (list RetrievedRule) :=
  matched ← for_each (keyword_match user_profile) (_rules self) [];
  let matched := sort_desc relevance_score matched in
  Ok (slice_to n_results matched).

(** [query]: the engine after the call and the rules retrieved. *)
Definition query (env : Env) (self : PhysioRAG)
    (user_profile : gmap string pyvalue) (n_results : Z)
  : result (PhysioRAG * list RetrievedRule) :=
  let self := if _initialized self then self else initialize env self true in
  query_text ← build_query_text user_profile;
  match _collection self with
  | Some _ =>
      retrieved ← _vector_query self query_text n_results;
      Ok (self, retrieved)
  | None =>
      retrieved ← _keyword_query self user_profile n_results;
      Ok (self, retrieved)
  end.

End Engine.

(** The body of the loop of [get_applicable_rules]. *)
Definition applicable_match (user_profile : gmap string pyvalue)
    (applicable : list PhysioRule) (rule : PhysioRule)
  : result (list PhysioRule) :=
  let condition := condition rule in
  let param := default "" (parameter condition) in
  let operator := default "" (operator condition) in
  let value := default VNone (value condition) in
  match user_profile !! param with
  | None => Ok applicable
  | Some user_value =>
      if is_none value then Ok applicable
      else if String.eqb operator "<" && isinstance_number user_value
              && isinstance_number value
      then
        below ← py_lt user_value value;
        if below : bool then Ok (applicable ++ [rule]) else Ok applicable
      else if String.eqb operator ">" && isinstance_number user_value
              && isinstance_number value
      then
        above ← py_gt user_value value;
        if above : bool then Ok (applicable ++ [rule]) else Ok applicable
      else if String.eqb operator "==" && py_eq user_value value
      then Ok (applicable ++ [rule])
      else if String.eqb operator "contains" && isinstance_list user_value
      then
        found ← py_in value user_value;
        if found : bool then Ok (applicable ++ [rule]) else Ok applicable
      else Ok applicable
  end.

Section Embedding.
Context `{Formatting}.

(** [_get_semantic_hints] *)
Definition _get_semantic_hints (param operator : string) (value : pyvalue)
  : result string :=
  hints ←
    (if String.eqb param "ph" then
       low ←
         (if String.eqb operator "<" && isinstance_number value
          then py_le value (VFloat 5.5) else Ok false);
       if low : bool then
         Ok ["acidic skin"; "dry skin chemistry"; "faster evaporation"]
       else
         high ←
           (if String.eqb operator ">" && isinstance_number value
            then py_ge value (VFloat 5.5) else Ok false);
         if high : bool then
           Ok ["alkaline skin"; "oily skin chemistry"; "slower breakdown"]
         else Ok []
     else if String.eqb param "skin_type" then
       if py_eq value (VStr "dry") then
         Ok ["low sebum"; "faster absorption"; "needs moisturizing bases"]
       else if py_eq value (VStr "oily") then
         Ok ["high sebum"; "better projection"; "avoid heavy oils"]
       else Ok []
     else if String.eqb param "temperature" then
       warm ←
         (if String.eqb operator ">" && isinstance_number value
          then py_ge value (VInt 37) else Ok false);
       if warm : bool then
         Ok ["warm skin"; "faster diffusion"; "enhanced projection"]
       else
         cool ←
           (if String.eqb operator "<" && isinstance_number value
            then py_le value (VInt 36) else Ok false);
         if cool : bool then
           Ok ["cool skin"; "slower evaporation"; "subtle sillage"]
         else Ok []
     else Ok []);
  Ok (String.concat ", " hints).

(** An element of [metadatas]. *)
Record Metadata := {
  md_target : string;
  md_action : string;
  md_parameter : string;
  md_operator : string;
  md_value : string;
  md_factor : string
}.

(** [rule.factor] as a condition: false for [None] and for a zero. *)
Definition factor_given (r : PhysioRule) : bool :=
  match factor r with
  | Some f => float_truthy f
  | None => false
  end.

(** The body of the loop of [_embed_rules]: the document, the id and the
    metadata appended for one rule. *)
Definition embed_rule (acc : list string * list string * list Metadata)
    (r : PhysioRule) : result (list string * list string * list Metadata) :=
  let '(documents, ids, metadatas) := acc in
  let param := default "" (parameter (condition r)) in
  let operator := default "" (operator (condition r)) in
  let value := default (VStr "") (value (condition r)) in
  let doc_parts :=
    [ "Condition: " +:+ param +:+ " " +:+ operator +:+ " " +:+ str_value value;
      "Affects: " +:+ target r;
      "Action: " +:+ action r ] in
  let doc_parts :=
    if factor_given r then
      doc_parts ++
      ["Adjustment factor: " +:+ str_float (default 0%float (factor r))]
    else doc_parts in
  let doc_parts :=
    if str_truthy (reasoning r) then
      doc_parts ++ ["Reasoning: " +:+ reasoning r]
    else doc_parts in
  semantic_hints ← _get_semantic_hints param operator value;
  let doc_parts :=
    if str_truthy semantic_hints then
      doc_parts ++ ["Related concepts: " +:+ semantic_hints]
    else doc_parts in
  Ok (documents ++ [String.concat " | " doc_parts],
      ids ++ [id r],
      metadatas ++
      [ {| md_target := target r;
           md_action := action r;
           md_parameter := param;
           md_operator := operator;
           md_value := str_value value;
           md_factor :=
             if factor_given r then str_float (default 0%float (factor r))
             else "" |} ]).

(** [_embed_rules]. [add] is the [add] method of the collection held, an
    external capability: given the [documents], the [ids] and the
    [metadatas] it stores them, or raises (an [ImportError] when the
    embedder cannot load its model). The result is [None] when the method
    returns before the loop (no collection or no rule), else what [add]
    gives. *)
Definition _embed_rules {A : Type}
    (add : list string -> list string -> list Metadata -> result A)
    (self : PhysioRAG) : result (option A) :=
  match _collection self, _rules self with
  | None, _ | _, [] => Ok None
  | Some _, _ :: _ =>
      payload ← for_each embed_rule (_rules self) ([], [], []);
      added ← add (fst (fst payload)) (snd (fst payload)) (snd payload);
      Ok (Some added)
  end.

End Embedding.

(** [get_applicable_rules]: the engine after the call and the rules. *)
Definition get_applicable_rules (env : Env) (self : PhysioRAG)
    (user_profile : gmap string pyvalue)
  : result (PhysioRAG * list PhysioRule) :=
  let self := if _initialized self then self else initialize env self true in
  applicable ← for_each (applicable_match user_profile) (_rules self) [];
  Ok (self, applicable).

End Rag.


(* ===================================================================== *)
(** * The formulation routes ([api/routes/formulation.py]) *)
(* ===================================================================== *)

Module Formulation.
Import Py.

(** The pydantic model [Ingredient]. *)
Record Ingredient := {
  name : string;
  smiles : string;
  concentration : float;
  note_type : string;
  logp : float;
  molecular_weight : option float;
  is_sustainable : bool;
  source : string;
  sustainability_score : option Z
}.

Record ValidationRequest := {
  ingredients : list Ingredient;
  product_category : string
}.

(** An element of [violations] in the response: the dict built from an
    [IFRAViolation]. *)
Record ViolationDict := {
  vd_ingredient : string;
  vd_type : string;
  vd_current : float;
  vd_max_allowed : float;
  vd_severity : string;
  vd_recommendation : string
}.

Record ValidationResponse := {
  compliant : bool;
  violations : list ViolationDict;
  warnings : list string;
  allergens_to_declare : list IFRA.Declaration;
  allergen_total : float;
  max_allergen_limit : float;
  summary : string
}.

(** The route [validate_formula], on the validator [ifra_validator] in the
    state [validator] and the standards file [file]: the validator after
    the call and the response. *)
Definition validate_formula `{Formatting} (file : option IFRA.Standards)
    (validator : IFRA.IFRAValidator) (request : ValidationRequest)
  : IFRA.IFRAValidator * ValidationResponse :=
  let ingredients_data :=
    map (fun ing =>
           {| IFRA.ing_name := Some (name ing);
              IFRA.ing_concentration := Some (concentration ing);
              IFRA.ing_cas := None |})
      (ingredients request) in
  let '(validator, report) :=
    IFRA.validate_formula file validator ingredients_data
      (product_category request) in
  let violations :=
    map (fun v =>
           {| vd_ingredient := IFRA.ingredient_name v;
              vd_type := IFRA.violation_type v;
              vd_current := IFRA.current_concentration v;
              vd_max_allowed := IFRA.max_allowed v;
              vd_severity := IFRA.severity v;
              vd_recommendation := IFRA.recommendation v |})
      (IFRA.violations report) in
  let warnings :=
    map vd_recommendation
      (List.filter (fun v => String.eqb (vd_severity v) "warning") violations) in
  (validator,
   {| compliant := IFRA.is_compliant report;
      violations := violations;
      warnings := warnings;
      allergens_to_declare := IFRA.allergens_to_declare report;
      allergen_total := IFRA.total_allergen_load report;
      max_allergen_limit := 1.0;
      summary := IFRA.summary report |}).

Section Estimates.

(** [sum] over floats. How Python adds them up depends on its version;
    nothing below depends on it. *)
Variable py_sum : list float -> float.

Definition concentrations (ingredients : list Ingredient) : list float :=
  map concentration ingredients.

Definition concentrations_of (note : string) (ingredients : list Ingredient)
  : list float :=
  map concentration
    (List.filter (fun i => String.eqb (note_type i) note) ingredients).

(** [_estimate_longevity] *)
Definition _estimate_longevity (ingredients : list Ingredient) : result float :=
  match ingredients with
  | [] => Ok 5.0%float
  | _ :: _ =>
      avg_logp ←
        py_div
          (py_sum (map (fun i => (logp i * concentration i)%float) ingredients))
          (py_sum (concentrations ingredients));
      let base_score := (5.0 + (avg_logp - 2.5) * 1.5)%float in
      base_ratio ←
        py_div (py_sum (concentrations_of "base" ingredients))
          (py_sum (concentrations ingredients));
      let base_bonus := (base_ratio * 3.0)%float in
      Ok (py_min 10.0 (py_max 1.0 (base_score + base_bonus)))
  end.

(** [_estimate_projection] *)
Definition _estimate_projection (ingredients : list Ingredient) : result float :=
  match ingredients with
  | [] => Ok 5.0%float
  | _ :: _ =>
      top_ratio ←
        py_div (py_sum (concentrations_of "top" ingredients))
          (py_sum (concentrations ingredients));
      let top_bonus := (top_ratio * 4.0)%float in
      let total_conc := py_sum (concentrations ingredients) in
      let conc_factor := py_min 2.0 (total_conc / 20.0) in
      Ok (py_min 10.0 (py_max 1.0 (4.0 + top_bonus + conc_factor)))
  end.

End Estimates.

(** The dict [keywords] of [_extract_preferences], in its order. *)
Definition keywords : list (string * list string) :=
  [ ("fresh", ["fresh"; "clean"; "crisp"]);
    ("floral", ["flower"; "floral"; "rose"; "jasmine"; "lily"]);
    ("woody", ["wood"; "woody"; "cedar"; "sandalwood"; "forest"]);
    ("citrus", ["citrus"; "lemon"; "orange"; "bergamot"; "lime"]);
    ("sweet", ["sweet"; "vanilla"; "caramel"; "honey"]);
    ("spicy", ["spicy"; "pepper"; "cinnamon"; "warm"]);
    ("earthy", ["earth"; "moss"; "rain"; "petrichor"]) ].

(** [_extract_preferences] *)
Definition _extract_preferences (prompt : string) : list string :=
  let prompt_lower := lower prompt in
  fold_left
    (fun preferences item =>
       if existsb (fun word => str_in word prompt_lower) (snd item)
       then preferences ++ [fst item] else preferences)
    keywords [].

(** [_generate_formula_name]; [prompt] is [None] for Python's [None]. *)
Definition _generate_formula_name (valence arousal : float)
    (prompt : option string) : string :=
  let by_quadrant :=
    if PrimFloat.leb 0 valence then
      if PrimFloat.leb 0.5 arousal then "Radiant Energy" else "Serene Bliss"
    else
      if PrimFloat.leb 0.5 arousal then "Bold Intensity"
      else "Deep Contemplation" in
  match prompt with
  | Some prompt =>
      if str_truthy prompt then
        let prompt_lower := lower prompt in
        if str_in "morning" prompt_lower || str_in "fresh" prompt_lower
        then "Dawn Whisper"
        else if str_in "night" prompt_lower || str_in "evening" prompt_lower
        then "Midnight Reverie"
        else if str_in "rain" prompt_lower || str_in "petrichor" prompt_lower
        then "After the Rain"
        else if str_in "garden" prompt_lower || str_in "flower" prompt_lower
        then "Secret Garden"
        else if str_in "ocean" prompt_lower || str_in "sea" prompt_lower
        then "Ocean Drift"
        else if str_in "forest" prompt_lower || str_in "wood" prompt_lower
        then "Forest Path"
        else by_quadrant
      else by_quadrant
  | None => by_quadrant
  end.

End Formulation.
(* ===================================================================== *)
(** * Specification-level definitions *)
(* ===================================================================== *)

Module IFRASpec.
Import Py IFRA.

Definition empty_acc : Acc :=
  {| acc_violations := []; acc_declared := []; acc_total := 0 |}.

(** The sum that [total_allergen_load += concentration] builds, from
    [start], over declarations in the order they were made. *)
Definition load_from (start : float) (declared : list Declaration) : float :=
  fold_left (fun total d => (total + decl_concentration d)%float) declared start.

(** The standards a call works on, once [_load_standards] has run. *)
Definition loaded_standards (file : option Standards) (self : IFRAValidator)
  : Standards :=
  _standards (_load_standards file self).

Definition restricted_map_of (std : Standards)
  : list (string * RestrictedSubstance) :=
  dict_of (fun s => lower (rs_name s)) (default [] (restricted_substances std)).

Definition allergen_map_of (std : Standards) : list (string * Allergen) :=
  dict_of (fun a => lower (al_name a))
    (default [] (allergens_declaration_required std)).

Definition phototox_map_of (std : Standards) : list (string * PhototoxLimit) :=
  dict_of (fun p => lower (pt_name p)) (default [] (phototoxicity_limits std)).

Definition name_of (ing : Ingredient) : string := default "" (ing_name ing).

Definition concentration_of (ing : Ingredient) : float :=
  default 0%float (ing_concentration ing).

(** The restricted entry an ingredient name is compared with: the last
    entry of the list whose name equals it, case apart. *)
Definition restricted_entry (std : Standards) (name : string)
  : option RestrictedSubstance :=
  List.find (fun s => String.eqb (lower (rs_name s)) (lower name))
    (rev (default [] (restricted_substances std))).

(** The limit of a restricted entry as the validator reads it: the one of
    cat1, whatever the category. *)
Definition limit_cat1 (category : string) (e : RestrictedSubstance) : float :=
  default 0%float (rs_max_concentration_cat1 e).

(** The limit of a restricted entry for the passed category, in the words
    of the specification. *)
Definition limit_of_category (category : string) (e : RestrictedSubstance)
  : float :=
  if String.eqb category "cat2" then default 0%float (rs_max_concentration_cat2 e)
  else default 0%float (rs_max_concentration_cat1 e).

(** The report holds a violation with these fields. *)
Definition emits (r : IFRAReport) (name type : string)
    (concentration limit : float) (sev : string) : Prop :=
  exists v, In v (violations r) /\ ingredient_name v = name /\
            violation_type v = type /\
            current_concentration v = concentration /\
            max_allowed v = limit /\ severity v = sev.

(** The cap on the total allergen load as the validator reads it: the one
    of [cat1_leave_on], whatever the category. *)
Definition cap_cat1 (category : string) (std : Standards) : float :=
  default 1.0%float
    (limits ← total_allergen_limits std;
     cat1 ← cat1_leave_on limits;
     max_total_percentage cat1).


(** An ingredient crosses the declaration threshold of an allergen entry:
    the names match by containment either way, the threshold is not 0 and
    the concentration reaches it. *)
Definition crosses (ing : Ingredient) (item : string * Allergen) : bool :=
  let threshold := default 0.001%float (al_threshold_cat1 (snd item)) in
  (str_in (fst item) (lower (name_of ing)) ||
   str_in (lower (name_of ing)) (fst item)) &&
  negb (PrimFloat.eqb threshold 0) &&
  PrimFloat.leb threshold (concentration_of ing).

Definition declaration_of (ing : Ingredient) (item : string * Allergen)
  : Declaration :=
  {| decl_name := name_of ing;
     decl_cas := al_cas (snd item);
     decl_concentration := concentration_of ing;
     decl_threshold := default 0.001%float (al_threshold_cat1 (snd item)) |}.

(** One declaration for each ingredient and each allergen entry whose
    threshold it crosses, ingredient by ingredient. *)
Definition declared (std : Standards) (ings : list Ingredient)
  : list Declaration :=
  flat_map
    (fun ing =>
       map (declaration_of ing) (List.filter (crosses ing) (allergen_map_of std)))
    ings.






Definition is_critical (v : IFRAViolation) : bool :=
  String.eqb (severity v) "critical".

(** What the loop over the ingredients adds: critical, of one of three
    types. *)
Definition per_ingredient (v : IFRAViolation) : Prop :=
  severity v = "critical" /\
  (violation_type v = "banned" \/ violation_type v = "over_limit" \/
   violation_type v = "phototoxicity").

Definition known_type (v : IFRAViolation) : Prop :=
  violation_type v = "banned" \/ violation_type v = "over_limit" \/
  violation_type v = "phototoxicity" \/ violation_type v = "allergen_load".

Section Claims.
Context `{Formatting}.

Definition restricted_violations
    (restricted_map : list (string * RestrictedSubstance))
    (ing : Ingredient) : list IFRAViolation :=
  check_restricted restricted_map (name_of ing) (lower (name_of ing))
    (concentration_of ing) [].

Definition phototox_violations (ing : Ingredient)
    (item : string * PhototoxLimit) : list IFRAViolation :=
  check_phototox (name_of ing) (lower (name_of ing)) (concentration_of ing)
    [] item.

Definition allergen_step (ing : Ingredient) (item : string * Allergen) : Acc :=
  check_allergen (name_of ing) (lower (name_of ing)) (concentration_of ing)
    empty_acc item.

(** Everything one ingredient adds to [violations], in the order added. *)
Definition ingredient_violations
    (restricted_map : list (string * RestrictedSubstance))
    (allergen_map : list (string * Allergen))
    (phototox_map : list (string * PhototoxLimit))
    (ing : Ingredient) : list IFRAViolation :=
  restricted_violations restricted_map ing ++
  flat_map (phototox_violations ing) phototox_map ++
  flat_map (fun item => acc_violations (allergen_step ing item)) allergen_map.

Definition ingredient_declarations (allergen_map : list (string * Allergen))
    (ing : Ingredient) : list Declaration :=
  flat_map (fun item => acc_declared (allergen_step ing item)) allergen_map.

(** What the loop over the ingredients leaves in [violations]. *)
Definition body_violations (std : Standards) (ings : list Ingredient)
  : list IFRAViolation :=
  flat_map
    (ingredient_violations (restricted_map_of std) (allergen_map_of std)
       (phototox_map_of std))
    ings.

(** The violation added after the loop when the load exceeds the cap. *)
Definition load_warning (total cap : float) : IFRAViolation :=
  {| ingredient_name := "Total Allergens";
     cas_number := None;
     violation_type := "allergen_load";
     current_concentration := total;
     max_allowed := cap;
     severity := "warning";
     recommendation :=
       "Total allergen load " +:+ fmt_2f total +:+ "% exceeds " +:+
       str_float cap +:+ "% recommendation" |}.

(** The restricted-substance check, for a reading [limit] of "the maximum
    concentration for the passed category". *)
Definition restricted_check (limit : string -> RestrictedSubstance -> float)
    (file : option Standards) (self : IFRAValidator)
    (ings : list Ingredient) (category : string) : Prop :=
  let std := loaded_standards file self in
  let r := snd (validate_formula file self ings category) in
  forall ing e,
    In ing ings ->
    restricted_entry std (name_of ing) = Some e ->
    (PrimFloat.eqb (limit category e) 0 = true ->
     emits r (name_of ing) "banned" (concentration_of ing) 0 "critical") /\
    (PrimFloat.eqb (limit category e) 0 = false ->
     PrimFloat.ltb (limit category e) (concentration_of ing) = true ->
     emits r (name_of ing) "over_limit" (concentration_of ing)
       (limit category e) "critical").



End Claims.

(** ** Concrete inputs *)

Definition plain : Formatting :=
  {| str_float := fun _ => "<float>";
     fmt_2f := fun _ => "<float>";
     str_int := fun _ => "<int>";
     str_value := fun _ => "<value>" |}.

Definition ingredient (name : string) (concentration : float) : Ingredient :=
  {| ing_name := Some name;
     ing_concentration := Some concentration;
     ing_cas := None |}.

Definition no_entries : Standards :=
  {| restricted_substances := Some [];
     allergens_declaration_required := Some [];
     phototoxicity_limits := Some [];
     total_allergen_limits := None |}.

(** Coumarin banned in cat1 (the scenario of the specification). *)
Definition coumarin_banned : Standards :=
  {| restricted_substances :=
       Some [ {| rs_name := "coumarin"; rs_cas := None;
                 rs_max_concentration_cat1 := Some 0%float;
                 rs_max_concentration_cat2 := Some 0%float;
                 rs_reason := None |} ];
     allergens_declaration_required := Some [];
     phototoxicity_limits := Some [];
     total_allergen_limits := None |}.

(** Coumarin limited to 1% in cat1 and banned in cat2. *)
Definition coumarin_by_category : Standards :=
  {| restricted_substances :=
       Some [ {| rs_name := "coumarin"; rs_cas := None;
                 rs_max_concentration_cat1 := Some 1.0%float;
                 rs_max_concentration_cat2 := Some 0%float;
                 rs_reason := None |} ];
     allergens_declaration_required := Some [];
     phototoxicity_limits := Some [];
     total_allergen_limits := None |}.

(** Linalool to declare from 0.001%, caps of 1% (cat1) and 0.5% (cat2). *)
Definition linalool_caps : Standards :=
  {| restricted_substances := Some [];
     allergens_declaration_required :=
       Some [ {| al_name := "linalool"; al_cas := None;
                 al_threshold_cat1 := Some 0.001%float;
                 al_threshold_cat2 := Some 0.001%float |} ];
     phototoxicity_limits := Some [];
     total_allergen_limits :=
       Some {| cat1_leave_on := Some {| max_total_percentage := Some 1.0%float |};
               cat2_rinse_off := Some {| max_total_percentage := Some 0.5%float |} |} |}.


(** Bergamot oil limited to 0.4% for phototoxicity. *)
Definition bergamot_oil : Standards :=
  {| restricted_substances := Some [];
     allergens_declaration_required := Some [];
     phototoxicity_limits :=
       Some [ {| pt_name := "Bergamot oil";
                 pt_max_concentration_cat1 := Some 0.4%float;
                 pt_reason := None |} ];
     total_allergen_limits := None |}.

End IFRASpec.

Module RagSpec.
Import Py Rag.

(** "Both numeric and [u < v]". *)
Definition numeric_lt (u v : pyvalue) : bool :=
  match as_number u, as_number v with
  | Some x, Some y => xreal_ltb x y
  | _, _ => false
  end.

(** The operator semantics of the specification: whether the condition of
    a rule holds of a profile. A parameter missing from the profile, a
    value that is missing or null and an unknown operator give [false]. *)
Definition condition_holds (profile : gmap string pyvalue) (c : Condition)
  : bool :=
  match profile !! default "" (parameter c), value c with
  | Some u, Some v =>
      negb (is_none v) &&
      (if String.eqb (default "" (operator c)) "<" then numeric_lt u v
       else if String.eqb (default "" (operator c)) ">" then numeric_lt v u
       else if String.eqb (default "" (operator c)) "==" then py_eq u v
       else if String.eqb (default "" (operator c)) "contains" then
         match u with
         | VList l => existsb (fun x => py_eq x v) l
         | _ => false
         end
       else false)
  | _, _ => false
  end.

Definition rule_applies (profile : gmap string pyvalue) (r : PhysioRule)
  : bool :=
  condition_holds profile (condition r).

(** A matching rule as the fallback query returns it. *)
Definition retrieved_of `{Formatting} (r : PhysioRule) : RetrievedRule :=
  {| rule := r;
     relevance_score := 0.9;
     matched_condition :=
       default "" (parameter (condition r)) +:+ " " +:+
       default "" (operator (condition r)) +:+ " " +:+
       str_value (default VNone (value (condition r))) |}.

(** The profile holds, under the keys that [query] reads, values of the
    types its text building expects: numbers for 'ph' and 'temperature', a
    string for 'skin_type', a list or a string for 'allergies'. *)
Definition text_typed (profile : gmap string pyvalue) : Prop :=
  (forall v, profile !! "ph" = Some v -> isinstance_number v = true) /\
  (forall v, profile !! "skin_type" = Some v -> exists s, v = VStr s) /\
  (forall v, profile !! "temperature" = Some v -> isinstance_number v = true) /\
  (forall v, profile !! "allergies" = Some v ->
             isinstance_list v = true \/ exists s, v = VStr s).

(** ** Concrete inputs *)

Definition plain : Formatting := IFRASpec.plain.

(** The rule of the scenario of the specification: [ph < 5.2]. *)
Definition acidic_rule : PhysioRule :=
  {| id := "acidic-skin";
     condition := {| parameter := Some "ph"; operator := Some "<";
                     value := Some (VFloat 5.2) |};
     target := "top_notes"; action := "increase"; factor := Some 1.2%float;
     threshold := None; substitute := None; reasoning := "" |}.

Definition oily_rule : PhysioRule :=
  {| id := "oily-skin";
     condition := {| parameter := Some "skin_type"; operator := Some "==";
                     value := Some (VStr "oily") |};
     target := "base_notes"; action := "decrease"; factor := None;
     threshold := None; substitute := None; reasoning := "" |}.

(** A rule on a pH given as a word: [ph == "acidic"]. *)
Definition worded_rule : PhysioRule :=
  {| id := "acidic-word";
     condition := {| parameter := Some "ph"; operator := Some "==";
                     value := Some (VStr "acidic") |};
     target := "top_notes"; action := "increase"; factor := None;
     threshold := None; substitute := None; reasoning := "" |}.

(** A rules file with the one rule and no ChromaDB to import. *)
Definition one_rule_env : Env :=
  {| rules_file := Some (Some [acidic_rule]); chromadb := None |}.

(** An engine initialized in keyword mode. *)
Definition keyword_engine (rules : list PhysioRule) : PhysioRAG :=
  {| _rules := rules; _collection := None; _embedder := None;
     _initialized := true |}.

Definition acidic_profile : gmap string pyvalue :=
  <["ph" := VFloat 4.8]> (<["skin_type" := VStr "dry"]> ∅).

(** A profile whose pH is a word. *)
Definition worded_profile : gmap string pyvalue :=
  <["ph" := VStr "acidic"]> ∅.

End RagSpec.

(* ===================================================================== *)
(** * Further definitions for the properties beyond the claims *)
(* ===================================================================== *)

Module MoreSpec.
Import Py.

Definition is_nil {A : Type} (l : list A) : bool :=
  match l with
  | [] => true
  | _ :: _ => false
  end.

(** The report of a formula in which nothing is found. *)
Definition clean_report (category : string) : IFRA.IFRAReport :=
  {| IFRA.is_compliant := true;
     IFRA.violations := [];
     IFRA.allergens_to_declare := [];
     IFRA.total_allergen_load := 0;
     IFRA.product_category := category;
     IFRA.summary := "Formula is fully IFRA compliant with no issues detected." |}.

(** The names of an ingredient and of an entry match, as the phototoxicity
    and allergen checks test it: one contains the other. *)
Definition names_match (entry_name name_lower : string) : bool :=
  str_in entry_name name_lower || str_in name_lower entry_name.





(** The rules that the ids name, in the order of the ids; an id that names
    no rule gives none. *)
Definition resolve_ids (self : Rag.PhysioRAG) (ids : list string)
  : list Rag.PhysioRule :=
  flat_map
    (fun rule_id =>
       match Rag._get_rule_by_id self rule_id with
       | Some r => [r]
       | None => []
       end)
    ids.

Definition with_factor (f : option float) (r : Rag.PhysioRule)
  : Rag.PhysioRule :=
  {| Rag.id := Rag.id r; Rag.condition := Rag.condition r;
     Rag.target := Rag.target r; Rag.action := Rag.action r;
     Rag.factor := f; Rag.threshold := Rag.threshold r;
     Rag.substitute := Rag.substitute r; Rag.reasoning := Rag.reasoning r |}.

(** ** Concrete inputs *)

(** Two restricted entries of the same name with different limits. *)
Definition coumarin_twice : IFRA.Standards :=
  {| IFRA.restricted_substances :=
       Some [ {| IFRA.rs_name := "Coumarin"; IFRA.rs_cas := None;
                 IFRA.rs_max_concentration_cat1 := Some 1.0%float;
                 IFRA.rs_max_concentration_cat2 := None;
                 IFRA.rs_reason := None |};
              {| IFRA.rs_name := "coumarin"; IFRA.rs_cas := None;
                 IFRA.rs_max_concentration_cat1 := Some 2.0%float;
                 IFRA.rs_max_concentration_cat2 := None;
                 IFRA.rs_reason := None |} ];
     IFRA.allergens_declaration_required := Some [];
     IFRA.phototoxicity_limits := Some [];
     IFRA.total_allergen_limits := None |}.

(** A collection that answers every query with one known id, one unknown
    id and a single distance. *)
Definition two_ids : Rag.Collection :=
  {| Rag.collection_query :=
       fun _ _ => (["acidic-skin"; "no-such-rule"], [0%float]) |}.

Definition vector_engine : Rag.PhysioRAG :=
  {| Rag._rules := [RagSpec.acidic_rule; RagSpec.oily_rule];
     Rag._collection := Some two_ids;
     Rag._embedder := None;
     Rag._initialized := true |}.

(** An environment whose rules file is missing. *)
Definition no_rules_env : Rag.Env :=
  {| Rag.rules_file := None; Rag.chromadb := None |}.

(** [sum] as the left-to-right addition from 0. *)
Definition sum_left (l : list float) : float :=
  fold_left PrimFloat.add l 0%float.

Definition rose : Formulation.Ingredient :=
  {| Formulation.name := "Rose oxide"; Formulation.smiles := "";
     Formulation.concentration := 5.0; Formulation.note_type := "middle";
     Formulation.logp := 3.0; Formulation.molecular_weight := None;
     Formulation.is_sustainable := true; Formulation.source := "natural";
     Formulation.sustainability_score := None |}.

Definition musk : Formulation.Ingredient :=
  {| Formulation.name := "Musk"; Formulation.smiles := "";
     Formulation.concentration := 10.0; Formulation.note_type := "base";
     Formulation.logp := 5.5; Formulation.molecular_weight := None;
     Formulation.is_sustainable := true; Formulation.source := "synthetic";
     Formulation.sustainability_score := None |}.

(** An ingredient listed at 0%. *)
Definition trace : Formulation.Ingredient :=
  {| Formulation.name := "Musk"; Formulation.smiles := "";
     Formulation.concentration := 0; Formulation.note_type := "base";
     Formulation.logp := 5.5; Formulation.molecular_weight := None;
     Formulation.is_sustainable := true; Formulation.source := "synthetic";
     Formulation.sustainability_score := None |}.

End MoreSpec.

(* ===================================================================== *)
(** * The validator: what [validate_formula] computes *)
(* ===================================================================== *)

Module IFRAFacts.
Import Py IFRA IFRASpec.

(** ** Ordered dictionaries *)

Lemma dict_get_set {V : Type} (k k' : string) (v : V) (d : list (string * V)) :
  dict_get k (dict_set k' v d) =
  if String.eqb k' k then Some v else dict_get k d.
Proof.
  induction d as [|[k0 v0] d IH]; simpl.
  - reflexivity.
  - destruct (String.eqb k0 k') eqn:E0; simpl.
    + apply String.eqb_eq in E0; subst k0.
      destruct (String.eqb k' k); reflexivity.
    + rewrite IH.
      destruct (String.eqb k0 k) eqn:E1; [|reflexivity].
      apply String.eqb_eq in E1; subst k.
      now rewrite String.eqb_sym, E0.
Qed.

Lemma find_snoc {A : Type} (p : A -> bool) (l : list A) (x : A) :
  List.find p (l ++ [x]) =
  match List.find p l with
  | Some y => Some y
  | None => if p x then Some x else None
  end.
Proof.
  induction l as [|y l IH]; simpl.
  - reflexivity.
  - destruct (p y); [reflexivity | exact IH].
Qed.

Lemma dict_get_fold {V : Type} (key : V -> string) (k : string) (l : list V)
    (d : list (string * V)) :
  dict_get k (fold_left (fun d s => dict_set (key s) s d) l d) =
  match List.find (fun s => String.eqb (key s) k) (rev l) with
  | Some s => Some s
  | None => dict_get k d
  end.
Proof.
  revert d; induction l as [|x l IH]; intros d; simpl.
  - reflexivity.
  - rewrite IH, find_snoc, dict_get_set.
    destruct (List.find _ (rev l)); [reflexivity|].
    destruct (String.eqb (key x) k); reflexivity.
Qed.

(** A comprehension over a list with repeated keys keeps, for each key,
    the last element that has it. *)
Lemma dict_get_dict_of {V : Type} (key : V -> string) (k : string) (l : list V) :
  dict_get k (dict_of key l) =
  List.find (fun s => String.eqb (key s) k) (rev l).
Proof.
  unfold dict_of. rewrite dict_get_fold. simpl.
  destruct (List.find _ (rev l)); reflexivity.
Qed.

Lemma restricted_entry_lookup (std : Standards) (name : string) :
  dict_get (lower name) (restricted_map_of std) = restricted_entry std name.
Proof. unfold restricted_map_of, restricted_entry. apply dict_get_dict_of. Qed.

(** ** The loop, ingredient by ingredient *)

Section Loop.
Context `{Formatting}.

Lemma check_restricted_app rm name nl c vs :
  check_restricted rm name nl c vs = vs ++ check_restricted rm name nl c [].
Proof.
  unfold check_restricted.
  destruct (dict_get nl rm) as [r|]; [|now rewrite app_nil_r].
  destruct (PrimFloat.eqb _ 0); [reflexivity|].
  destruct (PrimFloat.ltb _ c); [reflexivity | now rewrite app_nil_r].
Qed.

Lemma check_phototox_app name nl c vs item :
  check_phototox name nl c vs item = vs ++ check_phototox name nl c [] item.
Proof.
  unfold check_phototox. destruct item as [k p].
  destruct (str_in k nl || str_in nl k); [|now rewrite app_nil_r].
  destruct (PrimFloat.ltb _ c); [reflexivity | now rewrite app_nil_r].
Qed.

Lemma fold_phototox name nl c pm vs :
  fold_left (check_phototox name nl c) pm vs =
  vs ++ flat_map (check_phototox name nl c []) pm.
Proof.
  revert vs; induction pm as [|item pm IH]; intros vs; simpl.
  - now rewrite app_nil_r.
  - rewrite IH, check_phototox_app, <- app_assoc. reflexivity.
Qed.

Lemma check_allergen_split name nl c acc item :
  check_allergen name nl c acc item =
  {| acc_violations :=
       acc_violations acc ++
       acc_violations (check_allergen name nl c empty_acc item);
     acc_declared :=
       acc_declared acc ++
       acc_declared (check_allergen name nl c empty_acc item);
     acc_total :=
       load_from (acc_total acc)
         (acc_declared (check_allergen name nl c empty_acc item)) |}.
Proof.
  unfold check_allergen. destruct item as [k a]. destruct acc as [vs ds t].
  destruct (str_in k nl || str_in nl k); simpl;
    [|now rewrite !app_nil_r].
  destruct (PrimFloat.eqb _ 0); simpl; [now rewrite app_nil_r|].
  destruct (PrimFloat.leb _ c); simpl; now rewrite ?app_nil_r.
Qed.

Lemma load_from_app start ds1 ds2 :
  load_from start (ds1 ++ ds2) = load_from (load_from start ds1) ds2.
Proof. unfold load_from. apply fold_left_app. Qed.

Lemma fold_allergen name nl c am acc :
  fold_left (check_allergen name nl c) am acc =
  {| acc_violations :=
       acc_violations acc ++
       flat_map (fun item =>
                   acc_violations (check_allergen name nl c empty_acc item)) am;
     acc_declared :=
       acc_declared acc ++
       flat_map (fun item =>
                   acc_declared (check_allergen name nl c empty_acc item)) am;
     acc_total :=
       load_from (acc_total acc)
         (flat_map (fun item =>
                      acc_declared (check_allergen name nl c empty_acc item)) am) |}.
Proof.
  revert acc; induction am as [|item am IH]; intros acc; simpl.
  - destruct acc; simpl. now rewrite !app_nil_r.
  - rewrite IH, check_allergen_split; simpl.
    rewrite <- !app_assoc, load_from_app. reflexivity.
Qed.

Lemma check_ingredient_spec rm am pm acc ing :
  check_ingredient rm am pm acc ing =
  {| acc_violations := acc_violations acc ++ ingredient_violations rm am pm ing;
     acc_declared := acc_declared acc ++ ingredient_declarations am ing;
     acc_total := load_from (acc_total acc) (ingredient_declarations am ing) |}.
Proof.
  unfold check_ingredient. rewrite fold_allergen; simpl.
  rewrite fold_phototox, check_restricted_app, <- !app_assoc.
  reflexivity.
Qed.

Lemma fold_ingredients rm am pm ings acc :
  fold_left (check_ingredient rm am pm) ings acc =
  {| acc_violations :=
       acc_violations acc ++ flat_map (ingredient_violations rm am pm) ings;
     acc_declared :=
       acc_declared acc ++ flat_map (ingredient_declarations am) ings;
     acc_total :=
       load_from (acc_total acc)
         (flat_map (ingredient_declarations am) ings) |}.
Proof.
  revert acc; induction ings as [|ing ings IH]; intros acc; simpl.
  - destruct acc; simpl. now rewrite !app_nil_r.
  - rewrite IH, check_ingredient_spec; simpl.
    rewrite <- !app_assoc, load_from_app. reflexivity.
Qed.

(** ** What one ingredient adds *)

Ltac one_violation :=
  constructor; [unfold per_ingredient; simpl; auto | constructor].

Lemma restricted_violations_kind rm ing :
  Forall per_ingredient (restricted_violations rm ing).
Proof.
  unfold restricted_violations, check_restricted.
  destruct (dict_get _ rm) as [r|]; [|constructor].
  destruct (PrimFloat.eqb _ 0).
  - one_violation.
  - destruct (PrimFloat.ltb _ _); [one_violation | constructor].
Qed.

Lemma phototox_violations_kind ing item :
  Forall per_ingredient (phototox_violations ing item).
Proof.
  unfold phototox_violations, check_phototox. destruct item as [k p].
  destruct (_ || _); [|constructor].
  destruct (PrimFloat.ltb _ _); [one_violation | constructor].
Qed.

(** A turn of the allergen check bans, declares or does nothing; a turn
    that declares adds no violation. *)
Lemma allergen_step_cases ing item :
  acc_declared (allergen_step ing item) =
    (if crosses ing item then [declaration_of ing item] else []) /\
  Forall per_ingredient (acc_violations (allergen_step ing item)) /\
  (crosses ing item = true -> acc_violations (allergen_step ing item) = []).
Proof.
  unfold allergen_step, check_allergen, crosses, declaration_of.
  destruct item as [k a]; simpl.
  destruct (_ || _); simpl; [|repeat split; auto; discriminate].
  destruct (PrimFloat.eqb _ 0); simpl.
  - repeat split; try discriminate. one_violation.
  - destruct (PrimFloat.leb _ _); simpl; repeat split; auto; discriminate.
Qed.

Lemma ingredient_declarations_spec am ing :
  ingredient_declarations am ing =
  map (declaration_of ing) (List.filter (crosses ing) am).
Proof.
  unfold ingredient_declarations.
  induction am as [|item am IH]; simpl; [reflexivity|].
  rewrite IH. destruct (allergen_step_cases ing item) as (-> & _ & _).
  destruct (crosses ing item); reflexivity.
Qed.

Lemma ingredient_violations_kind rm am pm ing :
  Forall per_ingredient (ingredient_violations rm am pm ing).
Proof.
  unfold ingredient_violations. rewrite !Forall_app. repeat split.
  - apply restricted_violations_kind.
  - apply Forall_flat_map, Forall_forall. intros item _.
    apply phototox_violations_kind.
  - apply Forall_flat_map, Forall_forall. intros item _.
    apply allergen_step_cases.
Qed.

End Loop.

(** ** The report *)

Lemma no_critical_count {A : Type} (p : A -> bool) (l : list A) :
  Nat.eqb (length (List.filter p l)) 0 = forallb (fun x => negb (p x)) l.
Proof.
  induction l as [|x l IH]; simpl; [reflexivity|].
  destruct (p x); simpl; [reflexivity | exact IH].
Qed.

Lemma is_critical_false (v : IFRAViolation) :
  is_critical v = false <-> severity v <> "critical".
Proof. unfold is_critical. apply String.eqb_neq. Qed.


Lemma per_ingredient_known (v : IFRAViolation) :
  per_ingredient v -> known_type v.
Proof. intros [_ [E|[E|E]]]; unfold known_type; auto. Qed.

Section Report.
Context `{Formatting}.

Lemma declared_flat_map std ings :
  flat_map (ingredient_declarations (allergen_map_of std)) ings =
  declared std ings.
Proof.
  unfold declared. induction ings as [|ing ings IH]; simpl; [reflexivity|].
  now rewrite IH, ingredient_declarations_spec.
Qed.

Lemma body_violations_kind std ings :
  Forall per_ingredient (body_violations std ings).
Proof.
  apply Forall_flat_map, Forall_forall. intros ing _.
  apply ingredient_violations_kind.
Qed.

(** The fields of the report, one by one. *)
Lemma report_fields file self ings category :
  let std := loaded_standards file self in
  let r := snd (validate_formula file self ings category) in
  let total := load_from 0 (declared std ings) in
  violations r =
    body_violations std ings ++
    (if PrimFloat.ltb (cap_cat1 category std) total
     then [load_warning total (cap_cat1 category std)] else []) /\
  allergens_to_declare r = declared std ings /\
  total_allergen_load r = total /\
  is_compliant r = forallb (fun v => negb (is_critical v)) (violations r) /\
  product_category r = category.
Proof.
  unfold validate_formula; cbv zeta; simpl.
  rewrite fold_ingredients; simpl.
  fold (loaded_standards file self).
  fold (restricted_map_of (loaded_standards file self)).
  fold (allergen_map_of (loaded_standards file self)).
  fold (phototox_map_of (loaded_standards file self)).
  fold (body_violations (loaded_standards file self) ings).
  rewrite declared_flat_map.
  fold (cap_cat1 category (loaded_standards file self)).
  repeat split.
  - destruct (PrimFloat.ltb _ _); [reflexivity | now rewrite app_nil_r].
  - rewrite no_critical_count.
    destruct (PrimFloat.ltb _ _); reflexivity.
Qed.

Lemma in_body_violations std ings ing v :
  In ing ings ->
  In v (restricted_violations (restricted_map_of std) ing) ->
  In v (body_violations std ings).
Proof.
  intros Hing Hv. apply in_flat_map. exists ing. split; [exact Hing|].
  unfold ingredient_violations. apply in_or_app. now left.
Qed.

End Report.

(** ** The claims on [validate_formula] *)

Section ValidateClaims.
Context `{Formatting}.

(** C1, as the code has it. For every standards file, validator, ingredient
    list and category, each ingredient whose name equals, case apart, the
    name of a restricted entry is compared with [max_concentration_cat1] of
    that entry, whatever the category passed: when that maximum is 0 the
    report holds a [banned] violation of severity critical and max_allowed
    0, and otherwise, when the concentration is strictly above it, the
    report holds an [over_limit] violation of severity critical whose
    max_allowed is that maximum. *)
Theorem restricted_check_uses_cat1 file self ings category :
  restricted_check limit_cat1 file self ings category.
Proof.
  unfold restricted_check. intros ing e Hing He.
  destruct (report_fields file self ings category) as (Hv & _).
  assert (Hin : forall v,
             In v (restricted_violations
                     (restricted_map_of (loaded_standards file self)) ing) ->
             In v (violations (snd (validate_formula file self ings category)))).
  { intros v Hv'. rewrite Hv. apply in_or_app. left.
    now apply in_body_violations with ing. }
  unfold limit_cat1.
  unfold restricted_violations, check_restricted in Hin.
  rewrite restricted_entry_lookup, He in Hin.
  split.
  - intros Hz. rewrite Hz in Hin.
    eexists. split; [apply Hin; left; reflexivity|]. simpl. auto.
  - intros Hnz Hgt. rewrite Hnz, Hgt in Hin.
    eexists. split; [apply Hin; left; reflexivity|]. simpl. auto.
Qed.






(** C3. The report is compliant exactly when none of its violations is of
    severity critical; in particular it is compliant when all its
    violations are of severity warning. *)
Theorem compliant_iff_no_critical file self ings category :
  let r := snd (validate_formula file self ings category) in
  (is_compliant r = true <->
   Forall (fun v => severity v <> "critical") (violations r)) /\
  (Forall (fun v => severity v = "warning") (violations r) ->
   is_compliant r = true).
Proof.
  destruct (report_fields file self ings category) as (_ & _ & _ & Hc & _).
  cbv zeta. rewrite Hc. clear Hc.
  assert (Hiff : forall l : list IFRAViolation,
             forallb (fun v => negb (is_critical v)) l = true <->
             Forall (fun v => severity v <> "critical") l).
  { intros l. rewrite forallb_forall, List.Forall_forall.
    split; intros Hl v Hv; specialize (Hl v Hv).
    - apply is_critical_false. now apply negb_true_iff.
    - apply negb_true_iff. now apply is_critical_false. }
  split; [apply Hiff|].
  intros Hw. apply Hiff. eapply List.Forall_impl; [|exact Hw].
  intros v E. rewrite E. discriminate.
Qed.

(** C9. Two calls that differ in the category only return the same
    validator and reports equal field by field, the echoed
    [product_category] apart. *)
Theorem category_only_echoed file self ings c1 c2 :
  let call1 := validate_formula file self ings c1 in
  let call2 := validate_formula file self ings c2 in
  fst call1 = fst call2 /\
  is_compliant (snd call1) = is_compliant (snd call2) /\
  violations (snd call1) = violations (snd call2) /\
  allergens_to_declare (snd call1) = allergens_to_declare (snd call2) /\
  total_allergen_load (snd call1) = total_allergen_load (snd call2) /\
  summary (snd call1) = summary (snd call2) /\
  product_category (snd call1) = c1 /\
  product_category (snd call2) = c2.
Proof. cbv zeta. unfold validate_formula. simpl. repeat split. Qed.

(** C10. The violations of a report are critical ones followed by at most
    one more, which is of type [allergen_load] and severity warning; none
    is of severity info. *)
Theorem warning_is_last_and_alone file self ings category :
  let r := snd (validate_formula file self ings category) in
  (exists critical rest,
     violations r = critical ++ rest /\
     Forall (fun v => severity v = "critical") critical /\
     (rest = [] \/
      exists w, rest = [w] /\ violation_type w = "allergen_load" /\
                severity w = "warning")) /\
  Forall (fun v => severity v <> "info") (violations r).
Proof.
  destruct (report_fields file self ings category) as (Hv & _).
  pose proof (body_violations_kind (loaded_standards file self) ings) as Hk.
  cbv zeta. rewrite Hv. split.
  - eexists _, _. split; [reflexivity|]. split.
    + eapply List.Forall_impl; [|exact Hk]. now intros v [E _].
    + destruct (PrimFloat.ltb _ _); [right | now left].
      eexists. repeat split.
  - apply Forall_app. split.
    + eapply List.Forall_impl; [|exact Hk]. intros v [E _]. rewrite E. discriminate.
    + destruct (PrimFloat.ltb _ _); [|constructor].
      constructor; [|constructor]. simpl. discriminate.
Qed.

End ValidateClaims.

(** ** The claims at concrete inputs *)

Lemma restricted_check_uses_cat1_witness :
  emits
    (snd (@validate_formula plain (Some coumarin_banned) init
            [ingredient "Coumarin" 0.8%float] "cat1"))
    "Coumarin" "banned" 0.8%float 0%float "critical".
Proof.
  edestruct (@restricted_check_uses_cat1 plain (Some coumarin_banned) init
               [ingredient "Coumarin" 0.8%float] "cat1"
               (ingredient "Coumarin" 0.8%float)) as [Hban _].
  - left; reflexivity.
  - reflexivity.
  - apply Hban. reflexivity.
Defined.

(** C1 as stated fails: with coumarin limited to 1% in cat1 and banned in
    cat2, coumarin at 0.5% validated for cat2 is not reported as banned;
    the report has no violation at all. *)
Lemma restricted_check_by_category_fails :
  ~ @restricted_check plain limit_of_category (Some coumarin_by_category)
      init [ingredient "Coumarin" 0.5%float] "cat2".
Proof.
  intros Hclaim.
  edestruct (Hclaim (ingredient "Coumarin" 0.5%float)) as [Hban _].
  - left; reflexivity.
  - reflexivity.
  - destruct Hban as (v & Hin & _); [reflexivity|].
    vm_compute in Hin. exact Hin.
Qed.



Lemma compliant_iff_no_critical_witness :
  is_compliant
    (snd (@validate_formula plain (Some linalool_caps) init
            [ingredient "Linalool" 1.5%float] "cat1")) = true.
Proof.
  apply (@compliant_iff_no_critical plain (Some linalool_caps) init
           [ingredient "Linalool" 1.5%float] "cat1").
  vm_compute. constructor; [reflexivity | constructor].
Defined.

(** The scenarios of the specification. *)
Example coumarin_scenario :
  let r := snd (@validate_formula plain (Some coumarin_banned) init
                  [ingredient "Coumarin" 0.8%float] "cat1") in
  is_compliant r = false /\ length (violations r) = 1%nat /\
  map violation_type (violations r) = ["banned"] /\
  map severity (violations r) = ["critical"].
Proof. vm_compute. repeat split. Qed.

Example linalool_scenario :
  let r := snd (@validate_formula plain (Some linalool_caps) init
                  [ingredient "Linalool" 0.05%float] "cat1") in
  is_compliant r = true /\ violations r = [] /\
  map decl_name (allergens_to_declare r) = ["Linalool"] /\
  total_allergen_load r = 0.05%float.
Proof. vm_compute. repeat split. Qed.

(** ** [get_max_concentration] *)

Lemma get_max_concentration_restricted file self name category e :
  first_match (fun r => String.eqb (lower (rs_name r)) (lower name))
    (default [] (restricted_substances (loaded_standards file self))) = Some e ->
  snd (get_max_concentration file self name category) =
  rs_max_concentration_cat1 e.
Proof.
  unfold get_max_concentration, loaded_standards. simpl. now intros ->.
Qed.

(** Without a restricted entry of that name, the answer is the limit of
    the first phototoxicity entry whose name is contained in the
    ingredient name; the containment is not tested the other way. *)
Lemma get_max_concentration_phototox file self name category :
  first_match (fun r => String.eqb (lower (rs_name r)) (lower name))
    (default [] (restricted_substances (loaded_standards file self))) = None ->
  snd (get_max_concentration file self name category) =
  p ← first_match (fun p => str_in (lower (pt_name p)) (lower name))
        (default [] (phototoxicity_limits (loaded_standards file self)));
  pt_max_concentration_cat1 p.
Proof.
  unfold get_max_concentration, loaded_standards. simpl. intros ->.
  destruct (first_match _ _); reflexivity.
Qed.

(** C6 fails on the code. With "Bergamot oil" limited to 0.4%, the name
    "Bergamot" is contained in the entry name, so [validate_formula] reports
    a phototoxicity violation with max_allowed 0.4 for it, while
    [get_max_concentration] answers [None], "not restricted". *)
Theorem max_concentration_is_one_way :
  snd (get_max_concentration (Some bergamot_oil) init "Bergamot" "cat1") = None /\
  emits
    (snd (@validate_formula plain (Some bergamot_oil) init
            [ingredient "Bergamot" 1.0%float] "cat1"))
    "Bergamot" "phototoxicity" 1.0%float 0.4%float "critical".
Proof.
  split; [reflexivity|].
  eexists. split; [left; reflexivity|]. vm_compute. repeat split.
Qed.

(** ** [_load_standards] *)

(** A second load changes nothing, whatever the file has become. *)
Lemma load_standards_idempotent file file' self :
  _load_standards file' (_load_standards file self) = _load_standards file self.
Proof.
  unfold _load_standards.
  destruct (_loaded self) eqn:E; [now rewrite E|].
  destruct file; reflexivity.
Qed.

Lemma load_standards_loaded file self :
  _loaded (_load_standards file self) = true.
Proof.
  unfold _load_standards.
  destruct (_loaded self) eqn:E; [exact E|].
  destruct file; reflexivity.
Qed.

End IFRAFacts.

(* ===================================================================== *)
(** * The retrieval engine: keyword query and applicable rules *)
(* ===================================================================== *)

Module RagFacts.
Import Py Rag RagSpec.

(** ** Comparisons under the [isinstance] guards *)

Lemma py_lt_numbers (a b : pyvalue) :
  isinstance_number a = true -> isinstance_number b = true ->
  py_lt a b = Ok (numeric_lt a b).
Proof. destruct a, b; simpl; intros; try discriminate; reflexivity. Qed.

Lemma numeric_lt_needs_numbers (a b : pyvalue) :
  numeric_lt a b = true ->
  isinstance_number a = true /\ isinstance_number b = true.
Proof. destruct a, b; simpl; intros; try discriminate; auto. Qed.

Lemma numeric_lt_guarded (a b : pyvalue) :
  isinstance_number a && isinstance_number b = false -> numeric_lt a b = false.
Proof.
  intros Hg. destruct (numeric_lt a b) eqn:E; [|reflexivity].
  apply numeric_lt_needs_numbers in E as [Ha Hb].
  now rewrite Ha, Hb in Hg.
Qed.

Lemma py_in_list (v c : pyvalue) :
  isinstance_list c = true ->
  py_in v c =
  Ok (match c with VList l => existsb (fun x => py_eq x v) l | _ => false end).
Proof. destruct c; simpl; intros; try discriminate; reflexivity. Qed.

(** ** One rule *)

(** The four-way test of [_keyword_query] never raises and is the
    operator semantics of the specification. *)
Lemma keyword_match_spec `{Formatting} (profile : gmap string pyvalue)
    (matched : list RetrievedRule) (r : PhysioRule) :
  keyword_match profile matched r =
  Ok (if rule_applies profile r then matched ++ [retrieved_of r] else matched).
Proof.
  unfold keyword_match, rule_applies, condition_holds, retrieved_of.
  destruct (profile !! default "" (parameter (condition r))) as [u|];
    [|reflexivity].
  destruct (value (condition r)) as [v|]; simpl; [|reflexivity].
  destruct (is_none v) eqn:Hnone; simpl; [reflexivity|].
  destruct (String.eqb (default "" (operator (condition r))) "<") eqn:Elt.
  { apply String.eqb_eq in Elt. rewrite Elt. simpl.
    destruct (isinstance_number u && isinstance_number v) eqn:Hg.
    - apply andb_true_iff in Hg as [Hu Hv].
      rewrite py_lt_numbers by assumption. simpl.
      destruct (numeric_lt u v); reflexivity.
    - now rewrite numeric_lt_guarded. }
  destruct (String.eqb (default "" (operator (condition r))) ">") eqn:Egt.
  { apply String.eqb_eq in Egt. rewrite Egt. simpl.
    destruct (isinstance_number u && isinstance_number v) eqn:Hg.
    - apply andb_true_iff in Hg as [Hu Hv].
      unfold py_gt. rewrite py_lt_numbers by assumption. simpl.
      destruct (numeric_lt v u); reflexivity.
    - rewrite numeric_lt_guarded; [reflexivity|].
      now rewrite andb_comm. }
  destruct (String.eqb (default "" (operator (condition r))) "==") eqn:Eeq.
  { simpl. destruct (py_eq u v); reflexivity. }
  destruct (String.eqb (default "" (operator (condition r))) "contains") eqn:Ein.
  { simpl. destruct (isinstance_list u) eqn:Hl.
    - rewrite py_in_list by assumption. simpl.
      destruct u; try discriminate.
      destruct (existsb _ _); reflexivity.
    - destruct u; try discriminate; reflexivity. }
  reflexivity.
Qed.

(** So is the chain of [get_applicable_rules]. *)
Lemma applicable_match_spec (profile : gmap string pyvalue)
    (applicable : list PhysioRule) (r : PhysioRule) :
  applicable_match profile applicable r =
  Ok (if rule_applies profile r then applicable ++ [r] else applicable).
Proof.
  unfold applicable_match, rule_applies, condition_holds.
  destruct (profile !! default "" (parameter (condition r))) as [u|];
    [|reflexivity].
  destruct (value (condition r)) as [v|]; simpl; [|reflexivity].
  destruct (is_none v) eqn:Hnone; simpl; [reflexivity|].
  destruct (String.eqb (default "" (operator (condition r))) "<") eqn:Elt.
  { apply String.eqb_eq in Elt. rewrite Elt. simpl.
    destruct (isinstance_number u && isinstance_number v) eqn:Hg.
    - apply andb_true_iff in Hg as [Hu Hv].
      rewrite py_lt_numbers by assumption. simpl.
      destruct (numeric_lt u v); reflexivity.
    - now rewrite numeric_lt_guarded. }
  destruct (String.eqb (default "" (operator (condition r))) ">") eqn:Egt.
  { apply String.eqb_eq in Egt. rewrite Egt. simpl.
    destruct (isinstance_number u && isinstance_number v) eqn:Hg.
    - apply andb_true_iff in Hg as [Hu Hv].
      unfold py_gt. rewrite py_lt_numbers by assumption. simpl.
      destruct (numeric_lt v u); reflexivity.
    - rewrite numeric_lt_guarded; [reflexivity|].
      now rewrite andb_comm. }
  destruct (String.eqb (default "" (operator (condition r))) "==") eqn:Eeq.
  { apply String.eqb_eq in Eeq. rewrite Eeq. simpl.
    destruct (py_eq u v); reflexivity. }
  destruct (String.eqb (default "" (operator (condition r))) "contains") eqn:Ein.
  { simpl. destruct (isinstance_list u) eqn:Hl.
    - rewrite py_in_list by assumption. simpl.
      destruct u; try discriminate.
      destruct (existsb _ _); reflexivity.
    - destruct u; try discriminate; reflexivity. }
  reflexivity.
Qed.

(** ** The loops *)

Lemma for_each_keyword `{Formatting} (profile : gmap string pyvalue)
    (rules : list PhysioRule) (matched : list RetrievedRule) :
  for_each (keyword_match profile) rules matched =
  Ok (matched ++ map retrieved_of (List.filter (rule_applies profile) rules)).
Proof.
  revert matched; induction rules as [|r rules IH]; intros matched; simpl.
  - now rewrite app_nil_r.
  - rewrite keyword_match_spec. simpl. rewrite IH.
    destruct (rule_applies profile r); simpl; [|reflexivity].
    now rewrite <- app_assoc.
Qed.

Lemma for_each_applicable (profile : gmap string pyvalue)
    (rules applicable : list PhysioRule) :
  for_each (applicable_match profile) rules applicable =
  Ok (applicable ++ List.filter (rule_applies profile) rules).
Proof.
  revert applicable; induction rules as [|r rules IH]; intros applicable; simpl.
  - now rewrite app_nil_r.
  - rewrite applicable_match_spec. simpl. rewrite IH.
    destruct (rule_applies profile r); simpl; [|reflexivity].
    now rewrite <- app_assoc.
Qed.

(** ** Ranking and truncation *)

(** Every match has the relevance 0.9, and the stable sort leaves a list
    of equal keys as it is. *)
Lemma sort_desc_retrieved `{Formatting} (rules : list PhysioRule) :
  sort_desc relevance_score (map retrieved_of rules) = map retrieved_of rules.
Proof.
  induction rules as [|r rules IH]; [reflexivity|].
  change (insert_desc relevance_score (retrieved_of r)
            (sort_desc relevance_score (map retrieved_of rules)) =
          retrieved_of r :: map retrieved_of rules).
  rewrite IH. destruct rules; reflexivity.
Qed.

Lemma slice_to_nonnegative {A : Type} (n : Z) (l : list A) :
  (0 <= n)%Z -> slice_to n l = firstn (Z.to_nat n) l.
Proof.
  intros Hn. unfold slice_to.
  destruct (0 <=? n)%Z eqn:E; [reflexivity|].
  apply Z.leb_gt in E. lia.
Qed.

Lemma in_firstn {A : Type} (n : nat) (l : list A) (x : A) :
  In x (firstn n l) -> In x l.
Proof.
  intros Hx. rewrite <- (firstn_skipn n l). apply in_or_app. now left.
Qed.

(** ** The two operations on an initialized engine *)

Lemma get_applicable_rules_spec env self profile :
  _initialized self = true ->
  get_applicable_rules env self profile =
  Ok (self, List.filter (rule_applies profile) (_rules self)).
Proof.
  intros Hinit. unfold get_applicable_rules. rewrite Hinit.
  now rewrite for_each_applicable.
Qed.

Lemma keyword_query_spec `{Formatting} self profile n :
  _keyword_query self profile n =
  Ok (slice_to n
        (map retrieved_of (List.filter (rule_applies profile) (_rules self)))).
Proof.
  unfold _keyword_query. rewrite for_each_keyword. simpl.
  now rewrite sort_desc_retrieved.
Qed.

(** In keyword mode [query] is [_keyword_query] behind the building of the
    query text, which is not used on that path but is evaluated first. *)
Lemma query_keyword_mode `{Formatting} env self profile n :
  _initialized self = true -> _collection self = None ->
  query env self profile n =
  (_ ← build_query_text profile;
   retrieved ← _keyword_query self profile n;
   Ok (self, retrieved)).
Proof.
  intros Hinit Hnone. unfold query. rewrite Hinit, Hnone. reflexivity.
Qed.

(** The text building succeeds on a profile typed for it, and then
    [query] in keyword mode returns what [_keyword_query] returns. *)
Lemma build_query_text_typed `{Formatting} profile :
  text_typed profile -> exists text, build_query_text profile = Ok text.
Proof.
  intros (Hph & Hskin & Htemp & Hall). unfold build_query_text.
  assert (Hp : forall parts, exists parts', ph_parts profile parts = Ok parts').
  { intros parts. unfold ph_parts.
    destruct (profile !! "ph") as [v|]; [|eauto].
    specialize (Hph v eq_refl). unfold py_gt.
    rewrite !py_lt_numbers by (assumption || reflexivity). simpl.
    destruct (numeric_lt v _); [eauto|]. destruct (numeric_lt _ v); eauto. }
  assert (Hs : forall parts, exists parts', skin_parts profile parts = Ok parts').
  { intros parts. unfold skin_parts.
    destruct (profile !! "skin_type") as [v|]; [|eauto].
    destruct (Hskin v eq_refl) as [s ->].
    destruct (String.eqb _ "dry"); [eauto|].
    destruct (String.eqb _ "oily"); eauto. }
  assert (Ht : forall parts,
             exists parts', temperature_parts profile parts = Ok parts').
  { intros parts. unfold temperature_parts.
    destruct (profile !! "temperature") as [v|]; [|eauto].
    specialize (Htemp v eq_refl). unfold py_gt.
    rewrite !py_lt_numbers by (assumption || reflexivity). simpl.
    destruct (numeric_lt _ v); [eauto|]. destruct (numeric_lt v _); eauto. }
  assert (Ha : forall parts,
             exists parts', allergy_parts profile parts = Ok parts').
  { intros parts. unfold allergy_parts.
    destruct (profile !! "allergies") as [v|]; [|eauto].
    destruct (Hall v eq_refl) as [Hl | [s ->]]; [|simpl; eauto].
    destruct v; try discriminate. simpl. eauto. }
  destruct (Hp []) as [p1 ->]. simpl.
  destruct (Hs p1) as [p2 ->]. simpl.
  destruct (Ht p2) as [p3 ->]. simpl.
  destruct (Ha p3) as [p4 ->]. simpl. eauto.
Qed.

Lemma query_keyword_typed `{Formatting} env self profile n :
  _initialized self = true -> _collection self = None ->
  text_typed profile ->
  query env self profile n =
  Ok (self,
      slice_to n
        (map retrieved_of (List.filter (rule_applies profile) (_rules self)))).
Proof.
  intros Hinit Hnone Htyped.
  rewrite query_keyword_mode by assumption.
  destruct (build_query_text_typed profile Htyped) as [text ->]. simpl.
  now rewrite keyword_query_spec.
Qed.

(** ** The cases that are no match *)

Lemma missing_key_no_match profile r :
  profile !! default "" (parameter (condition r)) = None ->
  rule_applies profile r = false.
Proof. unfold rule_applies, condition_holds. now intros ->. Qed.

Lemma null_value_no_match profile r :
  default VNone (value (condition r)) = VNone ->
  rule_applies profile r = false.
Proof.
  unfold rule_applies, condition_holds. intros Hv.
  destruct (profile !! _); [|reflexivity].
  destruct (value (condition r)) as [v|]; [|reflexivity].
  simpl in Hv. now rewrite Hv.
Qed.

Lemma ordering_needs_numbers profile r u v :
  operator (condition r) = Some "<" \/ operator (condition r) = Some ">" ->
  profile !! default "" (parameter (condition r)) = Some u ->
  value (condition r) = Some v ->
  isinstance_number u && isinstance_number v = false ->
  rule_applies profile r = false.
Proof.
  unfold rule_applies, condition_holds. intros Hop -> -> Hg.
  destruct Hop as [-> | ->]; simpl.
  - rewrite numeric_lt_guarded by assumption. apply andb_false_r.
  - rewrite numeric_lt_guarded by now rewrite andb_comm. apply andb_false_r.
Qed.

Lemma contains_needs_list profile r u :
  operator (condition r) = Some "contains" ->
  profile !! default "" (parameter (condition r)) = Some u ->
  isinstance_list u = false ->
  rule_applies profile r = false.
Proof.
  unfold rule_applies, condition_holds. intros -> -> Hl.
  destruct (value (condition r)) as [v|]; [|reflexivity]. simpl.
  destruct u; try discriminate; apply andb_false_r.
Qed.

(** Neither loop raises, whatever the rules and the profile. *)
Lemma keyword_query_total `{Formatting} self profile n :
  exists retrieved, _keyword_query self profile n = Ok retrieved.
Proof. rewrite keyword_query_spec. eauto. Qed.

Lemma get_applicable_rules_total env self profile :
  exists self' applicable,
    get_applicable_rules env self profile = Ok (self', applicable).
Proof.
  unfold get_applicable_rules. rewrite for_each_applicable. eauto.
Qed.

(** ** The claims on the keyword query *)

(** The loop of the keyword query against [get_applicable_rules]. On an
    initialized engine, for every profile and every [n >= 0], the applicable
    rules are the rules of the engine whose condition holds, in the order of
    the rule list, and [_keyword_query] returns the first [min n k] of these
    [k] rules, each as a [RetrievedRule] of relevance 0.9: the sort on equal
    relevances moves nothing. *)
Lemma keyword_query_is_prefix_of_applicable `{Formatting}
    env self profile (n : Z) :
  _initialized self = true -> (0 <= n)%Z ->
  exists applicable retrieved,
    applicable = List.filter (rule_applies profile) (_rules self) /\
    get_applicable_rules env self profile = Ok (self, applicable) /\
    _keyword_query self profile n = Ok retrieved /\
    retrieved = map retrieved_of (firstn (Z.to_nat n) applicable) /\
    length retrieved = Nat.min (Z.to_nat n) (length applicable) /\
    Forall (fun r => relevance_score r = 0.9%float) retrieved.
Proof.
  intros Hinit Hn.
  exists (List.filter (rule_applies profile) (_rules self)).
  eexists. split; [reflexivity|].
  split; [now apply get_applicable_rules_spec|].
  split.
  - rewrite keyword_query_spec, slice_to_nonnegative by assumption.
    rewrite firstn_map. reflexivity.
  - split; [reflexivity|]. split.
    + now rewrite length_map, length_firstn.
    + apply Forall_map, List.Forall_forall. reflexivity.
Qed.

Lemma keyword_query_is_prefix_of_applicable_witness :
  exists applicable retrieved,
    applicable =
      List.filter (rule_applies acidic_profile)
        [oily_rule; acidic_rule; acidic_rule] /\
    get_applicable_rules one_rule_env
      (keyword_engine [oily_rule; acidic_rule; acidic_rule]) acidic_profile =
      Ok (keyword_engine [oily_rule; acidic_rule; acidic_rule], applicable) /\
    @_keyword_query plain
      (keyword_engine [oily_rule; acidic_rule; acidic_rule]) acidic_profile 1 =
      Ok retrieved /\
    retrieved = map (@retrieved_of plain) (firstn (Z.to_nat 1) applicable) /\
    length retrieved = Nat.min (Z.to_nat 1) (length applicable) /\
    Forall (fun r => relevance_score r = 0.9%float) retrieved.
Proof.
  apply (@keyword_query_is_prefix_of_applicable plain one_rule_env
           (keyword_engine [oily_rule; acidic_rule; acidic_rule])
           acidic_profile 1).
  - reflexivity.
  - lia.
Defined.

(** The same for [query] in keyword mode, on the profiles typed for its
    text building. *)
Lemma query_is_prefix_when_typed `{Formatting} env self profile (n : Z) :
  _initialized self = true -> _collection self = None ->
  text_typed profile -> (0 <= n)%Z ->
  query env self profile n =
  Ok (self,
      map retrieved_of
        (firstn (Z.to_nat n)
           (List.filter (rule_applies profile) (_rules self)))).
Proof.
  intros Hinit Hnone Htyped Hn.
  rewrite query_keyword_typed, slice_to_nonnegative by assumption.
  now rewrite firstn_map.
Qed.

(** C4 fails on the code for [query]. With the rule [ph == "acidic"] and
    the profile whose 'ph' is "acidic", the rule applies:
    [get_applicable_rules] returns it and the loop of the keyword query
    retrieves it with relevance 0.9; but [query], in keyword mode, compares
    the pH with 5.2 while it builds its query text and raises a
    [TypeError] instead of returning the rule, on an initialized engine and
    on a fresh one. *)
Theorem query_raises_where_a_rule_applies :
  get_applicable_rules one_rule_env (keyword_engine [worded_rule])
    worded_profile = Ok (keyword_engine [worded_rule], [worded_rule]) /\
  @_keyword_query plain (keyword_engine [worded_rule]) worded_profile 5 =
    Ok [@retrieved_of plain worded_rule] /\
  relevance_score (@retrieved_of plain worded_rule) = 0.9%float /\
  @query plain one_rule_env (keyword_engine [worded_rule]) worded_profile 5 =
    Raise TypeError /\
  @query plain
    {| rules_file := Some (Some [worded_rule]); chromadb := None |}
    init worded_profile 5 = Raise TypeError.
Proof. vm_compute. repeat split. Qed.

(** C5. On an initialized engine, for every profile and every [n >= 0],
    the keyword query returns at most [n] rules and the condition of each
    holds of the profile under the operator semantics; the applicable rules
    are all the rules whose condition holds, in the order of the rule list
    and without a cap; so every rule the query returns is among them. *)
Theorem keyword_query_sound_and_capped `{Formatting}
    env self profile (n : Z) :
  _initialized self = true -> (0 <= n)%Z ->
  exists retrieved applicable,
    _keyword_query self profile n = Ok retrieved /\
    get_applicable_rules env self profile = Ok (self, applicable) /\
    (Z.of_nat (length retrieved) <= n)%Z /\
    Forall (fun r => condition_holds profile (condition (rule r)) = true)
      retrieved /\
    applicable =
      List.filter (fun r => condition_holds profile (condition r))
        (_rules self) /\
    (forall r, In r retrieved -> In (rule r) applicable).
Proof.
  intros Hinit Hn.
  eexists. exists (List.filter (rule_applies profile) (_rules self)).
  split; [apply keyword_query_spec|].
  split; [now apply get_applicable_rules_spec|].
  rewrite slice_to_nonnegative by assumption.
  assert (Hsub : forall r,
             In r (firstn (Z.to_nat n)
                     (map retrieved_of
                        (List.filter (rule_applies profile) (_rules self)))) ->
             In (rule r) (List.filter (rule_applies profile) (_rules self))).
  { intros r Hr. apply in_firstn in Hr. apply in_map_iff in Hr.
    destruct Hr as (r0 & <- & Hr0). exact Hr0. }
  repeat split.
  - rewrite length_firstn. lia.
  - apply List.Forall_forall. intros r Hr.
    apply Hsub, filter_In in Hr. apply Hr.
  - exact Hsub.
Qed.

Lemma keyword_query_sound_and_capped_witness :
  exists retrieved applicable,
    @_keyword_query plain
      (keyword_engine [oily_rule; acidic_rule; acidic_rule]) acidic_profile 1 =
      Ok retrieved /\
    get_applicable_rules one_rule_env
      (keyword_engine [oily_rule; acidic_rule; acidic_rule]) acidic_profile =
      Ok (keyword_engine [oily_rule; acidic_rule; acidic_rule], applicable) /\
    (Z.of_nat (length retrieved) <= 1)%Z /\
    Forall (fun r => condition_holds acidic_profile (condition (rule r)) = true)
      retrieved /\
    applicable =
      List.filter (fun r => condition_holds acidic_profile (condition r))
        [oily_rule; acidic_rule; acidic_rule] /\
    (forall r, In r retrieved -> In (rule r) applicable).
Proof.
  apply (@keyword_query_sound_and_capped plain one_rule_env
           (keyword_engine [oily_rule; acidic_rule; acidic_rule])
           acidic_profile 1).
  - reflexivity.
  - lia.
Defined.

(** The scenario of the specification: the rule [ph < 5.2] is returned
    with relevance 0.9 for a pH of 4.8. *)
Example acidic_scenario :
  @query plain one_rule_env init acidic_profile 5 =
  Ok (initialize one_rule_env init true, [@retrieved_of plain acidic_rule]).
Proof. vm_compute. reflexivity. Qed.

(** ** Initialization *)

Lemma load_rules_appends env self rules :
  rules_file env = Some (Some rules) ->
  _rules (_load_rules env self) = _rules self ++ rules.
Proof.
  unfold _load_rules. intros ->. simpl.
  generalize (_rules self). induction rules as [|r rules IH]; intros l; simpl.
  - now rewrite app_nil_r.
  - rewrite IH, <- app_assoc. reflexivity.
Qed.

Lemma initialize_rules env self use_vector_db :
  _rules (initialize env self use_vector_db) = _rules (_load_rules env self).
Proof.
  unfold initialize. destruct use_vector_db; simpl; [|reflexivity].
  unfold _setup_vector_db. destruct (chromadb env); reflexivity.
Qed.

(** Each call of [initialize] on an existing rules file loads its rules
    once more. *)
Lemma initialize_appends env self use_vector_db rules :
  rules_file env = Some (Some rules) ->
  _rules (initialize env self use_vector_db) = _rules self ++ rules.
Proof. intros Hf. rewrite initialize_rules. now apply load_rules_appends. Qed.

(** C7 fails on the code for the engine. With a rules file of one rule, the
    engine holds the rule once after one [initialize] and twice after two,
    with or without the vector database asked for; a query then returns the
    rule twice. *)
Theorem initialize_twice_duplicates_rules :
  _rules (initialize one_rule_env init false) = [acidic_rule] /\
  _rules (initialize one_rule_env (initialize one_rule_env init false) false) =
    [acidic_rule; acidic_rule] /\
  _rules (initialize one_rule_env (initialize one_rule_env init true) true) =
    [acidic_rule; acidic_rule] /\
  @query plain one_rule_env
    (initialize one_rule_env (initialize one_rule_env init false) false)
    acidic_profile 5 =
  Ok (initialize one_rule_env (initialize one_rule_env init false) false,
      [@retrieved_of plain acidic_rule; @retrieved_of plain acidic_rule]).
Proof. vm_compute. repeat split. Qed.

(** ** Errors *)

(** C8 fails on the code for [query]. With the rule [ph < 5.2] and a
    profile whose 'ph' is a string, the loop of the keyword query and
    [get_applicable_rules] take the rule as no match, but [query] compares
    the pH with 5.2 while it builds its query text and raises a
    [TypeError], on a fresh engine and on one initialized in keyword mode. *)
Theorem query_raises_on_worded_ph :
  @query plain one_rule_env init worded_profile 5 = Raise TypeError /\
  @query plain one_rule_env (keyword_engine [acidic_rule]) worded_profile 5 =
    Raise TypeError /\
  @_keyword_query plain (keyword_engine [acidic_rule]) worded_profile 5 =
    Ok [] /\
  get_applicable_rules one_rule_env (keyword_engine [acidic_rule])
    worded_profile = Ok (keyword_engine [acidic_rule], []).
Proof. vm_compute. repeat split. Qed.

End RagFacts.

(* ===================================================================== *)
(** * The validator beyond the claims *)
(* ===================================================================== *)

Module ValidatorProps.
Import Py IFRA IFRASpec MoreSpec IFRAFacts.

Lemma flat_map_nil {A B : Type} (f : A -> list B) (l : list A) :
  (forall x, In x l -> f x = []) -> flat_map f l = [].
Proof.
  induction l as [|x l IH]; intros Hf; simpl; [reflexivity|].
  rewrite (Hf x) by now left. apply IH. intros y Hy. apply Hf. now right.
Qed.

Lemma flat_map_is_nil {A B : Type} (f : A -> list B) (l : list A) :
  is_nil (flat_map f l) = forallb (fun x => is_nil (f x)) l.
Proof.
  induction l as [|x l IH]; simpl; [reflexivity|].
  destruct (f x); simpl; [exact IH | reflexivity].
Qed.

Lemma forallb_pointwise {A : Type} (f g : A -> bool) (l : list A) :
  (forall x, f x = g x) -> forallb f l = forallb g l.
Proof.
  intros Hfg. induction l as [|x l IH]; simpl; [reflexivity|].
  now rewrite Hfg, IH.
Qed.

Lemma fst_validate_formula `{Formatting} file self ings category :
  fst (validate_formula file self ings category) = _load_standards file self.
Proof. reflexivity. Qed.

(** The report depends on the file and the validator through the loaded
    standards only. *)
Lemma report_of_standards `{Formatting} file file' self self' ings category :
  loaded_standards file self = loaded_standards file' self' ->
  snd (validate_formula file self ings category) =
  snd (validate_formula file' self' ings category).
Proof.
  unfold loaded_standards, validate_formula. cbv zeta. simpl.
  now intros ->.
Qed.

(** X1. Without a standards file a validator that has not loaded yet finds
    nothing, whatever the formula: the report is the clean one, no
    ingredient has a maximum concentration and none is an allergen. *)
Theorem missing_file_is_permissive `{Formatting}
    self ings category (name : string) :
  _loaded self = false ->
  snd (validate_formula None self ings category) = clean_report category /\
  snd (get_max_concentration None self name category) = None /\
  snd (is_allergen None self name) = false.
Proof.
  intros Hfresh. split; [|split].
  - unfold validate_formula, _load_standards. rewrite Hfresh.
    cbv zeta. simpl. rewrite fold_ingredients. simpl.
    rewrite !flat_map_nil by reflexivity. reflexivity.
  - unfold get_max_concentration, _load_standards. now rewrite Hfresh.
  - unfold is_allergen, _load_standards. now rewrite Hfresh.
Qed.

Lemma missing_file_is_permissive_witness :
  snd (@validate_formula plain None init [ingredient "Coumarin" 50%float] "cat1")
    = clean_report "cat1" /\
  snd (get_max_concentration None init "Coumarin" "cat1") = None /\
  snd (is_allergen None init "Coumarin") = false.
Proof.
  apply (@missing_file_is_permissive plain init
           [ingredient "Coumarin" 50%float] "cat1" "Coumarin").
  reflexivity.
Defined.

(** X2. The standards file is read by the first call only: after any call
    of [validate_formula], a further call answers from the standards
    loaded then, whatever the file has become, and leaves the validator as
    it is. *)
Theorem file_is_read_once `{Formatting}
    file file' self ings category ings' category' :
  let loaded := fst (validate_formula file self ings category) in
  validate_formula file' loaded ings' category' =
    (loaded, snd (validate_formula file self ings' category')).
Proof.
  cbv zeta. rewrite fst_validate_formula.
  rewrite (surjective_pairing (validate_formula file' _ ings' category')).
  rewrite fst_validate_formula, load_standards_idempotent. f_equal.
  apply report_of_standards. unfold loaded_standards.
  now rewrite load_standards_idempotent.
Qed.

(** ** Compliance, ingredient by ingredient *)

Lemma compliant_iff_body_nil `{Formatting} file self ings category :
  is_compliant (snd (validate_formula file self ings category)) =
  is_nil (body_violations (loaded_standards file self) ings).
Proof.
  destruct (report_fields file self ings category) as (Hv & _ & _ & Hc & _).
  rewrite Hc, Hv.
  pose proof (body_violations_kind (loaded_standards file self) ings) as Hk.
  destruct (body_violations _ ings) as [|v body]; simpl.
  - destruct (PrimFloat.ltb _ _); reflexivity.
  - apply Forall_inv in Hk. destruct Hk as [Hcrit _].
    unfold is_critical. now rewrite Hcrit.
Qed.

(** X3. A formula is compliant exactly when each of its ingredients is
    compliant on its own; so the order of the ingredients does not matter
    for compliance and adding an ingredient never repairs a formula. *)
Theorem compliance_is_per_ingredient `{Formatting} file self ings category :
  is_compliant (snd (validate_formula file self ings category)) =
  forallb
    (fun ing => is_compliant (snd (validate_formula file self [ing] category)))
    ings.
Proof.
  rewrite compliant_iff_body_nil. unfold body_violations.
  rewrite flat_map_is_nil. apply forallb_pointwise. intros ing.
  rewrite compliant_iff_body_nil. unfold body_violations. simpl.
  now rewrite app_nil_r.
Qed.

Lemma forallb_false_in {A : Type} (p : A -> bool) (l : list A) (x : A) :
  In x l -> p x = false -> forallb p l = false.
Proof.
  intros Hx Hp. destruct (forallb p l) eqn:E; [|reflexivity].
  rewrite forallb_forall in E. now rewrite (E x Hx) in Hp.
Qed.



(** ** [is_allergen] and the allergen check *)

Lemma dict_set_keys {V : Type} (k k' : string) (v : V) (d : list (string * V)) :
  In k (map fst (dict_set k' v d)) <-> k = k' \/ In k (map fst d).
Proof.
  induction d as [|[k0 v0] d IH]; simpl.
  - intuition.
  - destruct (String.eqb k0 k') eqn:E; simpl.
    + apply String.eqb_eq in E. subst k0. intuition.
    + rewrite IH. intuition.
Qed.

Lemma dict_fold_keys {V : Type} (key : V -> string) (k : string) (l : list V)
    (d : list (string * V)) :
  In k (map fst (fold_left (fun d s => dict_set (key s) s d) l d)) <->
  In k (map key l) \/ In k (map fst d).
Proof.
  revert d; induction l as [|x l IH]; intros d; simpl.
  - intuition.
  - rewrite IH, dict_set_keys. intuition.
Qed.

(** The keys of a comprehension are the keys of the elements. *)
Lemma dict_of_keys {V : Type} (key : V -> string) (k : string) (l : list V) :
  In k (map fst (dict_of key l)) <-> In k (map key l).
Proof. unfold dict_of. rewrite dict_fold_keys. simpl. intuition. Qed.

(** [is_allergen] goes through the list and [validate_formula] through the
    dict made of it; they test the same names. *)
Lemma is_allergen_spec file self (name : string) :
  snd (is_allergen file self name) =
  existsb (fun item => names_match (fst item) (lower name))
    (allergen_map_of (loaded_standards file self)).
Proof.
  unfold is_allergen, allergen_map_of, loaded_standards. simpl.
  set (l := default [] _).
  apply eq_true_iff_eq. rewrite !existsb_exists. split.
  - intros (a & Ha & Hm).
    assert (Hk : In (lower (al_name a))
                   (map fst (dict_of (fun a => lower (al_name a)) l))).
    { apply dict_of_keys, in_map_iff. eauto. }
    apply in_map_iff in Hk. destruct Hk as ([k a'] & Hk & Hin).
    simpl in Hk. subst k. exists (lower (al_name a), a'). auto.
  - intros ([k a'] & Hin & Hm). simpl in Hm.
    assert (Hk' : In k (map (fun a => lower (al_name a)) l)).
    { apply dict_of_keys, in_map_iff. exists (k, a'). auto. }
    apply in_map_iff in Hk'. destruct Hk' as (a & <- & Ha). eauto.
Qed.

Lemma filter_none {A : Type} (p : A -> bool) (l : list A) :
  (forall x, In x l -> p x = false) -> List.filter p l = [].
Proof.
  induction l as [|x l IH]; intros Hp; simpl; [reflexivity|].
  rewrite (Hp x) by now left. apply IH. intros y Hy. apply Hp. now right.
Qed.

Lemma existsb_none {A : Type} (p : A -> bool) (l : list A) (x : A) :
  existsb p l = false -> In x l -> p x = false.
Proof.
  intros Hex Hx. destruct (p x) eqn:E; [|reflexivity].
  assert (existsb p l = true) by (apply existsb_exists; eauto). congruence.
Qed.

(** X5. An ingredient that [is_allergen] rejects is never declared: a
    formula made of such ingredients has nothing to declare and a total
    allergen load of 0. *)
Theorem non_allergens_are_not_declared `{Formatting} file self ings category :
  Forall (fun ing => snd (is_allergen file self (name_of ing)) = false) ings ->
  allergens_to_declare (snd (validate_formula file self ings category)) = [] /\
  total_allergen_load (snd (validate_formula file self ings category)) = 0%float.
Proof.
  intros Hnone.
  destruct (report_fields file self ings category) as (_ & Hd & Ht & _).
  assert (Hdecl : declared (loaded_standards file self) ings = []).
  { unfold declared. apply flat_map_nil. intros ing Hing.
    rewrite List.Forall_forall in Hnone. specialize (Hnone ing Hing).
    rewrite is_allergen_spec in Hnone.
    rewrite filter_none; [reflexivity|]. intros item Hitem.
    unfold crosses. fold (names_match (fst item) (lower (name_of ing))).
    now rewrite (existsb_none _ _ item Hnone Hitem). }
  rewrite Ht, Hd, Hdecl. split; reflexivity.
Qed.

Lemma non_allergens_are_not_declared_witness :
  allergens_to_declare
    (snd (@validate_formula plain (Some linalool_caps) init
            [ingredient "Coumarin" 2%float; ingredient "Vanillin" 3%float]
            "cat1")) = [] /\
  total_allergen_load
    (snd (@validate_formula plain (Some linalool_caps) init
            [ingredient "Coumarin" 2%float; ingredient "Vanillin" 3%float]
            "cat1")) = 0%float.
Proof.
  apply (@non_allergens_are_not_declared plain (Some linalool_caps) init
           [ingredient "Coumarin" 2%float; ingredient "Vanillin" 3%float]
           "cat1").
  repeat constructor.
Defined.

(** ** Ingredients without a name *)






(** ** [get_max_concentration] against [validate_formula] *)

Lemma find_rev_unique {A : Type} (key : A -> string) (k : string) (l : list A) :
  List.NoDup (map key l) ->
  List.find (fun s => String.eqb (key s) k) (rev l) =
  List.find (fun s => String.eqb (key s) k) l.
Proof.
  induction l as [|x l IH]; intros Hnd; [reflexivity|].
  simpl in Hnd. apply List.NoDup_cons_iff in Hnd as [Hx Hnd].
  simpl. rewrite find_snoc, (IH Hnd).
  destruct (String.eqb (key x) k) eqn:E.
  - apply String.eqb_eq in E.
    destruct (List.find _ l) as [y|] eqn:Hy; [|reflexivity].
    apply find_some in Hy as [Hin Hkey]. apply String.eqb_eq in Hkey.
    exfalso. apply Hx. rewrite E, <- Hkey. now apply in_map.
  - destruct (List.find _ l); reflexivity.
Qed.

(** X7. When no two restricted entries share a name, case apart, the entry
    whose limit [get_max_concentration] returns is the entry that
    [validate_formula] compares the ingredient with. *)
Theorem unique_names_one_limit file self (name category : string) e :
  List.NoDup (map (fun s => lower (rs_name s))
           (default [] (restricted_substances (loaded_standards file self)))) ->
  restricted_entry (loaded_standards file self) name = Some e ->
  snd (get_max_concentration file self name category) =
  rs_max_concentration_cat1 e.
Proof.
  intros Hnd He. apply get_max_concentration_restricted.
  unfold restricted_entry in He. rewrite find_rev_unique in He by assumption.
  exact He.
Qed.

Lemma unique_names_one_limit_witness :
  snd (get_max_concentration (Some coumarin_by_category) init "COUMARIN" "cat1")
  = Some 1.0%float.
Proof.
  apply (unique_names_one_limit (Some coumarin_by_category) init "COUMARIN"
           "cat1"
           {| rs_name := "coumarin"; rs_cas := None;
              rs_max_concentration_cat1 := Some 1.0%float;
              rs_max_concentration_cat2 := Some 0%float;
              rs_reason := None |}).
  - repeat constructor. intros [].
  - reflexivity.
Defined.

(** With two entries of one name the two disagree: [get_max_concentration]
    takes the first (1%), [validate_formula] the last (2%), so coumarin at
    1.5% passes. *)
Example repeated_name_two_limits :
  snd (get_max_concentration (Some coumarin_twice) init "Coumarin" "cat1")
    = Some 1.0%float /\
  violations
    (snd (@validate_formula plain (Some coumarin_twice) init
            [ingredient "Coumarin" 1.5%float] "cat1")) = [].
Proof. split; reflexivity. Qed.

(** ** What decides compliance *)






End ValidatorProps.

(* ===================================================================== *)
(** * The retrieval engine beyond the claims *)
(* ===================================================================== *)

Module EngineProps.
Import Py Rag RagSpec MoreSpec RagFacts.

(** ** [_get_rule_by_id] *)

(** X8. A rule found by id has that id and is one of the rules; no rule
    has an id that is not found; and when no two rules share an id, each
    rule is found by its own id. *)
Theorem rule_by_id_round_trip self :
  (forall rule_id r,
     _get_rule_by_id self rule_id = Some r ->
     id r = rule_id /\ In r (_rules self)) /\
  (forall rule_id,
     _get_rule_by_id self rule_id = None ->
     forall r, In r (_rules self) -> id r <> rule_id) /\
  (List.NoDup (map id (_rules self)) ->
   forall r, In r (_rules self) -> _get_rule_by_id self (id r) = Some r).
Proof.
  unfold _get_rule_by_id. split; [|split].
  - intros rule_id r Hfind. apply find_some in Hfind as [Hin Hid].
    apply String.eqb_eq in Hid. auto.
  - intros rule_id Hfind r Hin.
    apply (find_none _ _ Hfind) in Hin. now apply String.eqb_neq.
  - induction (_rules self) as [|x rules IH]; intros Hnd r Hin; [destruct Hin|].
    simpl in Hnd. apply List.NoDup_cons_iff in Hnd as [Hx Hnd]. simpl.
    destruct Hin as [<- | Hin]; [now rewrite String.eqb_refl|].
    destruct (String.eqb (id x) (id r)) eqn:E; [|now apply IH].
    apply String.eqb_eq in E. exfalso. apply Hx. rewrite E. now apply in_map.
Qed.

Lemma rule_by_id_round_trip_witness :
  _get_rule_by_id (keyword_engine [oily_rule; acidic_rule]) (id acidic_rule)
  = Some acidic_rule.
Proof.
  apply (rule_by_id_round_trip (keyword_engine [oily_rule; acidic_rule])).
  - repeat constructor; simpl; intuition discriminate.
  - right; left; reflexivity.
Defined.

(** ** Lazy initialization *)

Lemma initialize_initialized env self use_vector_db :
  _initialized (initialize env self use_vector_db) = true.
Proof. reflexivity. Qed.

(** X9. Whatever [query] or [get_applicable_rules] returns, the engine it
    leaves is initialized, and a later call of either leaves that engine
    as it is: rules are loaded at most once through these two. *)
Theorem lazy_initialization_happens_once `{Formatting}
    env env' self profile profile' n n' self1 retrieved :
  query env self profile n = Ok (self1, retrieved) ->
  _initialized self1 = true /\
  (forall self2 retrieved',
     query env' self1 profile' n' = Ok (self2, retrieved') -> self2 = self1) /\
  (forall self2 applicable,
     get_applicable_rules env' self1 profile' = Ok (self2, applicable) ->
     self2 = self1).
Proof.
  unfold query at 1. intros Hq.
  assert (Hself : self1 =
                  if _initialized self then self else initialize env self true).
  { destruct (build_query_text profile); simpl in Hq; [|discriminate].
    destruct (_collection _);
      [destruct (_vector_query _ _ _) | destruct (_keyword_query _ _ _)];
      simpl in Hq; try discriminate; inversion Hq; reflexivity. }
  assert (Hinit : _initialized self1 = true).
  { rewrite Hself. destruct (_initialized self) eqn:E; [exact E | reflexivity]. }
  clear Hq Hself. split; [exact Hinit|]. split.
  - intros self2 retrieved'. unfold query. rewrite Hinit.
    destruct (build_query_text profile'); simpl; [|discriminate].
    destruct (_collection self1);
      [destruct (_vector_query self1 _ _) | destruct (_keyword_query self1 _ _)];
      simpl; intros Hq'; try discriminate; inversion Hq'; reflexivity.
  - intros self2 applicable. rewrite get_applicable_rules_spec by assumption.
    intros Hg. inversion Hg. reflexivity.
Qed.

Lemma lazy_initialization_happens_once_witness :
  _initialized (initialize one_rule_env init true) = true /\
  (forall self2 retrieved',
     @query plain one_rule_env (initialize one_rule_env init true)
       acidic_profile 1 = Ok (self2, retrieved') ->
     self2 = initialize one_rule_env init true) /\
  (forall self2 applicable,
     get_applicable_rules one_rule_env (initialize one_rule_env init true)
       acidic_profile = Ok (self2, applicable) ->
     self2 = initialize one_rule_env init true).
Proof.
  apply (@lazy_initialization_happens_once plain one_rule_env one_rule_env init
           acidic_profile acidic_profile 5 1
           (initialize one_rule_env init true)
           [@retrieved_of plain acidic_rule]).
  vm_compute. reflexivity.
Defined.

(** ** When [query] raises *)

Lemma bind_Ok' {A B : Type} (a : A) (f : A -> result B) : Ok a ≫= f = f a.
Proof. reflexivity. Qed.

Lemma ph_parts_typed `{Formatting} profile parts :
  (forall v, profile !! "ph" = Some v -> isinstance_number v = true) ->
  exists parts', ph_parts profile parts = Ok parts'.
Proof.
  intros Hph. unfold ph_parts.
  destruct (profile !! "ph") as [v|]; [|eauto].
  specialize (Hph v eq_refl). unfold py_gt.
  rewrite !py_lt_numbers by (assumption || reflexivity). simpl.
  destruct (numeric_lt v _); [eauto|]. destruct (numeric_lt _ v); eauto.
Qed.

Lemma skin_parts_typed `{Formatting} profile parts :
  (forall v, profile !! "skin_type" = Some v -> exists s, v = VStr s) ->
  exists parts', skin_parts profile parts = Ok parts'.
Proof.
  intros Hskin. unfold skin_parts.
  destruct (profile !! "skin_type") as [v|]; [|eauto].
  destruct (Hskin v eq_refl) as [s ->].
  destruct (String.eqb _ "dry"); [eauto|].
  destruct (String.eqb _ "oily"); eauto.
Qed.

Lemma temperature_parts_typed `{Formatting} profile parts :
  (forall v, profile !! "temperature" = Some v -> isinstance_number v = true) ->
  exists parts', temperature_parts profile parts = Ok parts'.
Proof.
  intros Htemp. unfold temperature_parts.
  destruct (profile !! "temperature") as [v|]; [|eauto].
  specialize (Htemp v eq_refl). unfold py_gt.
  rewrite !py_lt_numbers by (assumption || reflexivity). simpl.
  destruct (numeric_lt _ v); [eauto|]. destruct (numeric_lt v _); eauto.
Qed.

Lemma ph_parts_raises `{Formatting} profile parts v :
  profile !! "ph" = Some v -> isinstance_number v = false ->
  ph_parts profile parts = Raise TypeError.
Proof.
  intros Hv Hn. unfold ph_parts. rewrite Hv.
  destruct v; try discriminate; reflexivity.
Qed.

Lemma skin_parts_raises `{Formatting} profile parts v :
  profile !! "skin_type" = Some v -> (forall s, v <> VStr s) ->
  skin_parts profile parts = Raise AttributeError.
Proof.
  intros Hv Hn. unfold skin_parts. rewrite Hv.
  destruct v; try reflexivity. now destruct (Hn s).
Qed.

Lemma temperature_parts_raises `{Formatting} profile parts v :
  profile !! "temperature" = Some v -> isinstance_number v = false ->
  temperature_parts profile parts = Raise TypeError.
Proof.
  intros Hv Hn. unfold temperature_parts. rewrite Hv.
  destruct v; try discriminate; reflexivity.
Qed.

Lemma allergy_parts_raises `{Formatting} profile parts v :
  profile !! "allergies" = Some v ->
  is_none v || isinstance_number v = true ->
  allergy_parts profile parts = Raise TypeError.
Proof.
  intros Hv Hn. unfold allergy_parts. rewrite Hv.
  destruct v; try discriminate; reflexivity.
Qed.

(** X10. On an initialized engine in keyword mode, whatever the rules,
    [query] returns a result for a profile typed for its text building, and
    raises on these profiles: a [TypeError] when 'ph' holds [None], a
    string or a list; else an [AttributeError] when 'skin_type' holds
    [None], a boolean, a number or a list; else a [TypeError] when
    'temperature' holds [None], a string or a list; else a [TypeError]
    when 'allergies' holds [None], a boolean or a number. Nothing is said
    of the other profiles: a dict or a tuple under 'allergies' is iterated
    by Python, and [pyvalue] has neither. *)
Theorem keyword_query_raises_on_mistyped `{Formatting} env self profile n :
  _initialized self = true -> _collection self = None ->
  (text_typed profile ->
   exists retrieved, query env self profile n = Ok (self, retrieved)) /\
  (forall v,
     profile !! "ph" = Some v -> isinstance_number v = false ->
     query env self profile n = Raise TypeError) /\
  ((forall v, profile !! "ph" = Some v -> isinstance_number v = true) ->
   (forall v,
      profile !! "skin_type" = Some v -> (forall s, v <> VStr s) ->
      query env self profile n = Raise AttributeError) /\
   ((forall v, profile !! "skin_type" = Some v -> exists s, v = VStr s) ->
    (forall v,
       profile !! "temperature" = Some v -> isinstance_number v = false ->
       query env self profile n = Raise TypeError) /\
    ((forall v,
        profile !! "temperature" = Some v -> isinstance_number v = true) ->
     forall v,
       profile !! "allergies" = Some v ->
       is_none v || isinstance_number v = true ->
       query env self profile n = Raise TypeError))).
Proof.
  intros Hinit Hnone. rewrite query_keyword_mode by assumption.
  unfold build_query_text. split; [|split].
  - intros Htyped.
    pose proof (query_keyword_typed env self profile n Hinit Hnone Htyped) as Hq.
    rewrite query_keyword_mode in Hq by assumption. eauto.
  - intros v Hv Hn. now rewrite (ph_parts_raises profile [] v Hv Hn).
  - intros Hph. destruct (ph_parts_typed profile [] Hph) as [p1 ->].
    rewrite bind_Ok'. split.
    + intros v Hv Hn. now rewrite (skin_parts_raises profile p1 v Hv Hn).
    + intros Hskin. destruct (skin_parts_typed profile p1 Hskin) as [p2 ->].
      rewrite bind_Ok'. split.
      * intros v Hv Hn.
        now rewrite (temperature_parts_raises profile p2 v Hv Hn).
      * intros Htemp.
        destruct (temperature_parts_typed profile p2 Htemp) as [p3 ->].
        rewrite bind_Ok'. intros v Hv Hn.
        now rewrite (allergy_parts_raises profile p3 v Hv Hn).
Qed.

Lemma keyword_query_raises_on_mistyped_witness :
  (exists retrieved,
     @query plain one_rule_env (keyword_engine [acidic_rule])
       acidic_profile 5 = Ok (keyword_engine [acidic_rule], retrieved)) /\
  @query plain one_rule_env (keyword_engine [acidic_rule])
    (<["ph" := VNone]> acidic_profile) 5 = Raise TypeError /\
  @query plain one_rule_env (keyword_engine [acidic_rule])
    (<["skin_type" := VInt 3]> acidic_profile) 5 = Raise AttributeError /\
  @query plain one_rule_env (keyword_engine [acidic_rule])
    (<["temperature" := VStr "warm"]> acidic_profile) 5 = Raise TypeError /\
  @query plain one_rule_env (keyword_engine [acidic_rule])
    (<["allergies" := VNone]> acidic_profile) 5 = Raise TypeError.
Proof.
  split; [|split; [|split; [|split]]].
  - destruct (@keyword_query_raises_on_mistyped plain one_rule_env
                (keyword_engine [acidic_rule]) acidic_profile 5
                eq_refl eq_refl) as (Hok & _).
    apply Hok.
    repeat split; intros v Hv; vm_compute in Hv; try discriminate.
    + injection Hv as <-. reflexivity.
    + injection Hv as <-. eauto.
  - destruct (@keyword_query_raises_on_mistyped plain one_rule_env
                (keyword_engine [acidic_rule])
                (<["ph" := VNone]> acidic_profile) 5
                eq_refl eq_refl) as (_ & Hph & _).
    apply (Hph VNone); reflexivity.
  - destruct (@keyword_query_raises_on_mistyped plain one_rule_env
                (keyword_engine [acidic_rule])
                (<["skin_type" := VInt 3]> acidic_profile) 5
                eq_refl eq_refl) as (_ & _ & Hrest).
    destruct Hrest as (Hskin & _).
    + intros v Hv. vm_compute in Hv. injection Hv as <-. reflexivity.
    + apply (Hskin (VInt 3)); [reflexivity | discriminate].
  - destruct (@keyword_query_raises_on_mistyped plain one_rule_env
                (keyword_engine [acidic_rule])
                (<["temperature" := VStr "warm"]> acidic_profile) 5
                eq_refl eq_refl) as (_ & _ & Hrest).
    destruct Hrest as (_ & Hrest).
    + intros v Hv. vm_compute in Hv. injection Hv as <-. reflexivity.
    + destruct Hrest as (Htemp & _).
      * intros v Hv. vm_compute in Hv. injection Hv as <-. eauto.
      * apply (Htemp (VStr "warm")); reflexivity.
  - destruct (@keyword_query_raises_on_mistyped plain one_rule_env
                (keyword_engine [acidic_rule])
                (<["allergies" := VNone]> acidic_profile) 5
                eq_refl eq_refl) as (_ & _ & Hrest).
    destruct Hrest as (_ & Hrest).
    + intros v Hv. vm_compute in Hv. injection Hv as <-. reflexivity.
    + destruct Hrest as (_ & Hall).
      * intros v Hv. vm_compute in Hv. injection Hv as <-. eauto.
      * apply (Hall ltac:(intros v Hv; vm_compute in Hv; discriminate) VNone);
          reflexivity.
Defined.

(** ** More and fewer results *)

Lemma map_rule_retrieved `{Formatting} (rules : list PhysioRule) :
  map rule (map retrieved_of rules) = rules.
Proof.
  induction rules as [|r rules IH]; simpl; [reflexivity | now rewrite IH].
Qed.

(** X11. Asking the keyword query for more results only extends the
    answer: for [0 <= n <= m] the answer for [n] is the first [n] of the
    answer for [m]; and once [n] is at least the number of rules that
    apply, the rules of the answer are all of them. *)
Theorem keyword_query_grows_with_n `{Formatting} self profile (n m : Z) :
  (0 <= n <= m)%Z ->
  exists fewer more,
    _keyword_query self profile n = Ok fewer /\
    _keyword_query self profile m = Ok more /\
    fewer = firstn (Z.to_nat n) more /\
    ((Z.of_nat (length (List.filter (rule_applies profile) (_rules self)))
      <= n)%Z ->
     map rule fewer = List.filter (rule_applies profile) (_rules self)).
Proof.
  intros Hnm. eexists _, _.
  split; [apply keyword_query_spec|]. split; [apply keyword_query_spec|].
  rewrite !slice_to_nonnegative by lia. split.
  - rewrite firstn_firstn. f_equal. lia.
  - intros Hall. rewrite firstn_all2 by (rewrite length_map; lia).
    apply map_rule_retrieved.
Qed.

Lemma keyword_query_grows_with_n_witness :
  exists fewer more,
    @_keyword_query plain (keyword_engine [acidic_rule; oily_rule; acidic_rule])
      acidic_profile 2 = Ok fewer /\
    @_keyword_query plain (keyword_engine [acidic_rule; oily_rule; acidic_rule])
      acidic_profile 7 = Ok more /\
    fewer = firstn (Z.to_nat 2) more /\
    ((Z.of_nat
        (length (List.filter (rule_applies acidic_profile)
                   [acidic_rule; oily_rule; acidic_rule])) <= 2)%Z ->
     map rule fewer =
     List.filter (rule_applies acidic_profile)
       [acidic_rule; oily_rule; acidic_rule]).
Proof.
  apply (@keyword_query_grows_with_n plain
           (keyword_engine [acidic_rule; oily_rule; acidic_rule])
           acidic_profile 2 7).
  lia.
Defined.

(** ** The vector query *)

Lemma vector_hits self text distances ids :
  Forall (fun d => PrimFloat.eqb (1.0 + d) 0 = false) distances ->
  forall i acc,
  exists out,
    for_each (vector_hit self text distances) ids (i, acc) =
      Ok ((i + length ids)%nat, acc ++ out) /\
    map rule out = resolve_ids self ids /\
    Forall (fun r => matched_condition r = text) out.
Proof.
  intros Hd. induction ids as [|rule_id ids IH]; intros i acc; simpl.
  - exists []. rewrite Nat.add_0_r, app_nil_r. repeat split. constructor.
  - unfold resolve_ids; simpl. fold (resolve_ids self ids).
    destruct (_get_rule_by_id self rule_id) as [r|]; simpl.
    + assert (Hden : PrimFloat.eqb
                       (1.0 + default 1.0%float (nth_error distances i)) 0
                     = false).
      { destruct (nth_error distances i) as [d|] eqn:E; [|reflexivity].
        apply nth_error_In in E. rewrite List.Forall_forall in Hd.
        now apply Hd. }
      rewrite Hden. simpl.
      destruct (IH (S i) (acc ++
                  [ {| rule := r;
                       relevance_score :=
                         (1.0 / (1.0 + default 1.0 (nth_error distances i)))%float;
                       matched_condition := text |} ]))
        as (out & Hout & Hrules & Htext).
      eexists (_ :: out). rewrite Hout, <- app_assoc. simpl.
      rewrite Nat.add_succ_r, Hrules. repeat split.
      constructor; [reflexivity | exact Htext].
    + destruct (IH (S i) acc) as (out & Hout & Hrules & Htext).
      exists out. rewrite Hout, Nat.add_succ_r. auto.
Qed.

(** X12. When no distance that the collection returns is -1, the vector
    query returns, in the order of the returned ids, one result for each id
    that names a rule of the engine and none for the other ids; it carries
    the rule so named and the query text. It returns whatever number of
    ids the collection returns. *)
Theorem vector_query_resolves_ids
    self collection text (n : Z) ids distances :
  _collection self = Some collection ->
  collection_query collection text n = (ids, distances) ->
  Forall (fun d => PrimFloat.eqb (1.0 + d) 0 = false) distances ->
  exists retrieved,
    _vector_query self text n = Ok retrieved /\
    map rule retrieved = resolve_ids self ids /\
    Forall (fun r => matched_condition r = text) retrieved /\
    (length retrieved <= length ids)%nat.
Proof.
  intros Hc Hq Hd. unfold _vector_query. rewrite Hc, Hq.
  destruct (vector_hits self text distances ids Hd 0%nat [])
    as (out & Hout & Hrules & Htext).
  rewrite Hout. simpl. exists out. repeat split; try assumption.
  rewrite <- (length_map rule), Hrules. unfold resolve_ids.
  clear. induction ids as [|rule_id ids IH]; simpl; [lia|].
  rewrite length_app. destruct (_get_rule_by_id self rule_id); simpl; lia.
Qed.

Lemma vector_query_resolves_ids_witness :
  exists retrieved,
    _vector_query vector_engine "pH level" 5 = Ok retrieved /\
    map rule retrieved =
      resolve_ids vector_engine ["acidic-skin"; "no-such-rule"] /\
    Forall (fun r => matched_condition r = "pH level") retrieved /\
    (length retrieved <= length ["acidic-skin"; "no-such-rule"])%nat.
Proof.
  apply (vector_query_resolves_ids vector_engine two_ids "pH level" 5
           ["acidic-skin"; "no-such-rule"] [0%float]).
  - reflexivity.
  - reflexivity.
  - repeat constructor.
Defined.

(** ** Falling back to the keyword query *)

(** X13. On a fresh engine, when ChromaDB cannot be imported, the first
    [query] loads the rules of the file and answers by keyword matching
    over them, for every profile typed for the text building. *)
Theorem fresh_engine_falls_back `{Formatting} env profile (n : Z) rules :
  chromadb env = None ->
  rules_file env = Some (Some rules) ->
  text_typed profile ->
  query env init profile n =
  Ok (initialize env init true,
      slice_to n (map retrieved_of (List.filter (rule_applies profile) rules))).
Proof.
  intros Hdb Hfile Htyped.
  assert (Hnone : _collection (initialize env init true) = None).
  { unfold initialize, _setup_vector_db. now rewrite Hdb. }
  assert (Hsame : query env init profile n =
                  query env (initialize env init true) profile n)
    by reflexivity.
  rewrite Hsame, query_keyword_typed by (assumption || reflexivity).
  now rewrite (initialize_appends env init true rules Hfile).
Qed.

Lemma fresh_engine_falls_back_witness :
  @query plain one_rule_env init acidic_profile 5 =
  Ok (initialize one_rule_env init true,
      slice_to 5
        (map (@retrieved_of plain)
           (List.filter (rule_applies acidic_profile) [acidic_rule]))).
Proof.
  apply (@fresh_engine_falls_back plain one_rule_env acidic_profile 5
           [acidic_rule]); try reflexivity.
  repeat split; intros v Hv; vm_compute in Hv; try discriminate.
  - injection Hv as <-. reflexivity.
  - injection Hv as <-. eauto.
Defined.

(** ** Embedding the rules *)








(** With an [add] that raises, [_embed_rules] raises the same; with one
    that stores, it returns what was stored. *)
Example embedding_outcomes :
  @_embed_rules plain unit (fun _ _ _ => Raise ImportError) vector_engine
    = Raise ImportError /\
  @_embed_rules plain (list string) (fun _ ids _ => Ok ids) vector_engine
    = Ok (Some ["acidic-skin"; "oily-skin"]) /\
  @_embed_rules plain unit (fun _ _ _ => Raise ImportError)
    (keyword_engine [acidic_rule]) = Ok None.
Proof. vm_compute. repeat split. Qed.

(** X15. A factor of 0 is embedded like no factor at all: the document
    has no "Adjustment factor" part and the metadata an empty 'factor'. *)
Theorem zero_factor_is_no_factor `{Formatting} acc r (f : float) :
  factor r = Some f -> PrimFloat.eqb f 0 = true ->
  embed_rule acc r = embed_rule acc (with_factor None r).
Proof.
  intros Hf Hz. destruct acc as [[documents ids] metadatas].
  unfold embed_rule, factor_given, float_truthy, with_factor. simpl.
  rewrite Hf, Hz. reflexivity.
Qed.

Lemma zero_factor_is_no_factor_witness :
  @embed_rule plain ([], [], []) (with_factor (Some 0%float) acidic_rule) =
  @embed_rule plain ([], [], []) (with_factor None acidic_rule).
Proof.
  apply (@zero_factor_is_no_factor plain ([], [], [])
           (with_factor (Some 0%float) acidic_rule) 0%float); reflexivity.
Defined.

(** ** Loading the rules *)

(** X21. [initialize] does not replace the rules it holds: with a rules
    file it appends the rules of the file to them, with a file that has no
    'rules' key it keeps them, and only with a missing file does it drop
    them all. *)
Theorem initialize_reloads_rules env self use_vector_db :
  (forall rules,
     rules_file env = Some (Some rules) ->
     _rules (initialize env self use_vector_db) = _rules self ++ rules) /\
  (rules_file env = Some None ->
   _rules (initialize env self use_vector_db) = _rules self) /\
  (rules_file env = None ->
   _rules (initialize env self use_vector_db) = []).
Proof.
  split; [|split].
  - intros rules. apply initialize_appends.
  - intros Hf. rewrite initialize_rules. unfold _load_rules. now rewrite Hf.
  - intros Hf. rewrite initialize_rules. unfold _load_rules. now rewrite Hf.
Qed.

Lemma initialize_reloads_rules_witness :
  _rules (initialize one_rule_env (keyword_engine [oily_rule]) false) =
    [oily_rule; acidic_rule] /\
  _rules (initialize no_rules_env (keyword_engine [oily_rule]) false) = [].
Proof.
  split.
  - apply (initialize_reloads_rules one_rule_env (keyword_engine [oily_rule])
             false). reflexivity.
  - apply (initialize_reloads_rules no_rules_env (keyword_engine [oily_rule])
             false). reflexivity.
Defined.

(** ** Keys that no rule reads *)

Lemma rule_applies_insert profile (key : string) (v : pyvalue) r :
  default "" (parameter (condition r)) <> key ->
  rule_applies (<[key := v]> profile) r = rule_applies profile r.
Proof.
  intros Hne. unfold rule_applies, condition_holds.
  rewrite lookup_insert_ne by congruence. reflexivity.
Qed.

(** X22. The rules that apply depend on the profile only through the keys
    that the rules name as their parameter: setting any other key of the
    profile changes neither the applicable rules nor what the keyword
    query retrieves. *)
Theorem unread_keys_change_nothing `{Formatting}
    env self profile (key : string) (v : pyvalue) (n : Z) :
  _initialized self = true ->
  Forall (fun r => default "" (parameter (condition r)) <> key) (_rules self) ->
  get_applicable_rules env self (<[key := v]> profile) =
    get_applicable_rules env self profile /\
  _keyword_query self (<[key := v]> profile) n =
    _keyword_query self profile n.
Proof.
  intros Hinit Hkeys.
  assert (Hsame : List.filter (rule_applies (<[key := v]> profile)) (_rules self)
                  = List.filter (rule_applies profile) (_rules self)).
  { induction (_rules self) as [|r rules IH]; [reflexivity|].
    apply Forall_cons in Hkeys as [Hr Hkeys]. simpl.
    rewrite (rule_applies_insert profile key v r Hr), (IH Hkeys).
    reflexivity. }
  rewrite !get_applicable_rules_spec, !keyword_query_spec by assumption.
  now rewrite Hsame.
Qed.

Lemma unread_keys_change_nothing_witness :
  get_applicable_rules one_rule_env (keyword_engine [acidic_rule; oily_rule])
    (<["temperature" := VStr "warm"]> acidic_profile) =
    get_applicable_rules one_rule_env (keyword_engine [acidic_rule; oily_rule])
      acidic_profile /\
  @_keyword_query plain (keyword_engine [acidic_rule; oily_rule])
    (<["temperature" := VStr "warm"]> acidic_profile) 5 =
    @_keyword_query plain (keyword_engine [acidic_rule; oily_rule])
      acidic_profile 5.
Proof.
  apply (@unread_keys_change_nothing plain one_rule_env
           (keyword_engine [acidic_rule; oily_rule]) acidic_profile
           "temperature" (VStr "warm") 5).
  - reflexivity.
  - repeat constructor; discriminate.
Defined.

End EngineProps.

(* ===================================================================== *)
(** * The formulation routes *)
(* ===================================================================== *)

Module FormulationProps.
Import Py MoreSpec.

(** ** The validation route *)

Lemma filter_map_commute {A B : Type} (f : A -> B) (p : B -> bool) (l : list A) :
  List.filter p (map f l) = map f (List.filter (fun x => p (f x)) l).
Proof.
  induction l as [|x l IH]; simpl; [reflexivity|].
  rewrite IH. destruct (p (f x)); reflexivity.
Qed.

Lemma forallb_of_map {A B : Type} (f : A -> B) (p : B -> bool) (l : list A) :
  forallb p (map f l) = forallb (fun x => p (f x)) l.
Proof.
  induction l as [|x l IH]; simpl; [reflexivity | now rewrite IH].
Qed.

(** X16. The validation route answers with the compliance of the report
    and with at most one warning: the recommendation of the allergen-load
    violation when the total allergen load is above the cap the validator
    used, and none otherwise. Critical violations never reach [warnings]. *)
Theorem route_warnings `{Formatting} file validator request :
  let std := IFRASpec.loaded_standards file validator in
  let response := snd (Formulation.validate_formula file validator request) in
  let cap := IFRASpec.cap_cat1 (Formulation.product_category request) std in
  Formulation.warnings response =
    (if PrimFloat.ltb cap (Formulation.allergen_total response)
     then [IFRA.recommendation
             (IFRASpec.load_warning (Formulation.allergen_total response) cap)]
     else []) /\
  length (Formulation.violations response) >= length (Formulation.warnings response) /\
  Formulation.compliant response =
    forallb (fun v => negb (String.eqb (Formulation.vd_severity v) "critical"))
      (Formulation.violations response).
Proof.
  cbv zeta. unfold Formulation.validate_formula.
  set (data := map _ (Formulation.ingredients request)).
  rewrite (surjective_pairing
             (IFRA.validate_formula file validator data
                (Formulation.product_category request))).
  cbn [snd Formulation.warnings Formulation.allergen_total
       Formulation.violations Formulation.compliant].
  destruct (IFRAFacts.report_fields file validator data
              (Formulation.product_category request))
    as (Hv & _ & Ht & Hc & _).
  pose proof (IFRAFacts.body_violations_kind
                (IFRASpec.loaded_standards file validator) data) as Hk.
  rewrite Hc, Ht, Hv. clear Hc Ht Hv.
  set (body := IFRASpec.body_violations _ data) in *.
  assert (Hbody : List.filter
                    (fun v => String.eqb (IFRA.severity v) "warning") body = []).
  { apply ValidatorProps.filter_none. intros v Hin.
    rewrite List.Forall_forall in Hk. destruct (Hk v Hin) as [-> _].
    reflexivity. }
  rewrite filter_map_commute.
  cbn [Formulation.vd_severity]. rewrite List.filter_app, Hbody.
  split; [|split].
  - destruct (PrimFloat.ltb _ _); reflexivity.
  - rewrite !length_map, length_app.
    destruct (PrimFloat.ltb _ _); simpl; lia.
  - rewrite forallb_of_map. reflexivity.
Qed.

(** ** The estimates *)

Lemma ltb_leb (a b : float) :
  PrimFloat.ltb a b = true -> PrimFloat.leb a b = true.
Proof.
  rewrite ltb_spec, leb_spec. unfold SFltb, SFleb.
  destruct (SFcompare _ _) as [[]|]; intros; try discriminate; reflexivity.
Qed.

(** [min(10.0, max(1.0, x))] is between 1 and 10 for every float [x], the
    NaN included. *)
Lemma clamp_in_range (x : float) :
  PrimFloat.leb 1.0 (py_min 10.0 (py_max 1.0 x)) = true /\
  PrimFloat.leb (py_min 10.0 (py_max 1.0 x)) 10.0 = true.
Proof.
  unfold py_min, py_max.
  destruct (PrimFloat.ltb 1.0 x) eqn:Elow.
  - destruct (PrimFloat.ltb x 10.0) eqn:Ehigh.
    + split; now apply ltb_leb.
    + split; reflexivity.
  - split; reflexivity.
Qed.

Section Estimates.
Variable py_sum : list float -> float.

(** X17. [_estimate_longevity] answers 5.0 for no ingredient; for a
    formula whose concentrations sum to zero it raises
    [ZeroDivisionError]; in every other case its score is between 1 and
    10. *)
Theorem longevity_in_range (ings : list Formulation.Ingredient) :
  (ings = [] -> Formulation._estimate_longevity py_sum ings = Ok 5.0%float) /\
  (ings <> [] ->
   PrimFloat.eqb (py_sum (Formulation.concentrations ings)) 0 = true ->
   Formulation._estimate_longevity py_sum ings = Raise ZeroDivisionError) /\
  (ings <> [] ->
   PrimFloat.eqb (py_sum (Formulation.concentrations ings)) 0 = false ->
   exists score,
     Formulation._estimate_longevity py_sum ings = Ok score /\
     PrimFloat.leb 1.0 score = true /\ PrimFloat.leb score 10.0 = true).
Proof.
  split; [now intros ->|].
  unfold Formulation._estimate_longevity, py_div.
  destruct ings as [|i ings]; (split; [intros Hne|intros Hne]); try easy.
  - intros ->. reflexivity.
  - intros ->. simpl. eexists. split; [reflexivity|]. apply clamp_in_range.
Qed.

(** X18. [_estimate_projection] behaves the same way: 5.0 for no
    ingredient, [ZeroDivisionError] when the concentrations sum to zero, a
    score between 1 and 10 otherwise. *)
Theorem projection_in_range (ings : list Formulation.Ingredient) :
  (ings = [] -> Formulation._estimate_projection py_sum ings = Ok 5.0%float) /\
  (ings <> [] ->
   PrimFloat.eqb (py_sum (Formulation.concentrations ings)) 0 = true ->
   Formulation._estimate_projection py_sum ings = Raise ZeroDivisionError) /\
  (ings <> [] ->
   PrimFloat.eqb (py_sum (Formulation.concentrations ings)) 0 = false ->
   exists score,
     Formulation._estimate_projection py_sum ings = Ok score /\
     PrimFloat.leb 1.0 score = true /\ PrimFloat.leb score 10.0 = true).
Proof.
  split; [now intros ->|].
  unfold Formulation._estimate_projection, py_div.
  destruct ings as [|i ings]; (split; [intros Hne|intros Hne]); try easy.
  - intros ->. reflexivity.
  - intros ->. simpl. eexists. split; [reflexivity|]. apply clamp_in_range.
Qed.

End Estimates.

Lemma longevity_in_range_witness :
  Formulation._estimate_longevity sum_left [trace] = Raise ZeroDivisionError /\
  exists score,
    Formulation._estimate_longevity sum_left [rose; musk] = Ok score /\
    PrimFloat.leb 1.0 score = true /\ PrimFloat.leb score 10.0 = true.
Proof.
  split.
  - apply (longevity_in_range sum_left [trace]); [discriminate | reflexivity].
  - apply (longevity_in_range sum_left [rose; musk]);
      [discriminate | reflexivity].
Defined.

Lemma projection_in_range_witness :
  Formulation._estimate_projection sum_left [trace] = Raise ZeroDivisionError /\
  exists score,
    Formulation._estimate_projection sum_left [rose; musk] = Ok score /\
    PrimFloat.leb 1.0 score = true /\ PrimFloat.leb score 10.0 = true.
Proof.
  split.
  - apply (projection_in_range sum_left [trace]); [discriminate | reflexivity].
  - apply (projection_in_range sum_left [rose; musk]);
      [discriminate | reflexivity].
Defined.

(** ** Prompts *)

Lemma lower_ascii_idempotent (c : ascii) :
  lower_ascii (lower_ascii c) = lower_ascii c.
Proof. destruct c as [[] [] [] [] [] [] [] []]; reflexivity. Qed.

Lemma lower_idempotent (s : string) : lower (lower s) = lower s.
Proof.
  induction s as [|c s IH]; simpl; [reflexivity|].
  now rewrite lower_ascii_idempotent, IH.
Qed.

Lemma lower_truthy (s : string) : str_truthy (lower s) = str_truthy s.
Proof. destruct s; reflexivity. Qed.

Lemma fold_filter_append {A B : Type} (p : A -> bool) (f : A -> B)
    (l : list A) (acc : list B) :
  fold_left (fun acc x => if p x then acc ++ [f x] else acc) l acc =
  acc ++ map f (List.filter p l).
Proof.
  revert acc; induction l as [|x l IH]; intros acc; simpl.
  - now rewrite app_nil_r.
  - rewrite IH. destruct (p x); simpl; [|reflexivity].
    now rewrite <- app_assoc.
Qed.

Lemma extract_preferences_spec (prompt : string) :
  Formulation._extract_preferences prompt =
  map fst
    (List.filter
       (fun item => existsb (fun word => str_in word (lower prompt)) (snd item))
       Formulation.keywords).
Proof.
  unfold Formulation._extract_preferences.
  exact (fold_filter_append
           (fun item =>
              existsb (fun word => str_in word (lower prompt)) (snd item))
           fst Formulation.keywords []).
Qed.

Lemma NoDup_map_filter {A B : Type} (f : A -> B) (p : A -> bool) (l : list A) :
  List.NoDup (map f l) -> List.NoDup (map f (List.filter p l)).
Proof.
  induction l as [|x l IH]; simpl; intros Hnd; [constructor|].
  apply List.NoDup_cons_iff in Hnd as [Hx Hnd].
  destruct (p x); simpl; [|now apply IH].
  constructor; [|now apply IH].
  intros Hin. apply Hx. apply in_map_iff in Hin as (y & Hy & Hin).
  apply filter_In in Hin as [Hin _]. rewrite <- Hy. now apply in_map.
Qed.

(** X19. The preferences extracted from a prompt are categories of the
    keyword table, none of them twice, and the letter case of the prompt
    plays no part: the prompt in lower case gives the same preferences and
    the same formula name. *)
Theorem prompts_are_case_blind (valence arousal : float) (prompt : string) :
  List.NoDup (Formulation._extract_preferences prompt) /\
  incl (Formulation._extract_preferences prompt)
    (map fst Formulation.keywords) /\
  Formulation._extract_preferences (lower prompt) =
    Formulation._extract_preferences prompt /\
  Formulation._generate_formula_name valence arousal (Some (lower prompt)) =
    Formulation._generate_formula_name valence arousal (Some prompt).
Proof.
  rewrite !extract_preferences_spec. repeat split.
  - apply NoDup_map_filter.
    repeat (constructor; [simpl; intuition discriminate|]). constructor.
  - intros c Hc. apply in_map_iff in Hc as (item & <- & Hin).
    apply filter_In in Hin as [Hin _]. now apply in_map.
  - now rewrite lower_idempotent.
  - unfold Formulation._generate_formula_name.
    now rewrite lower_truthy, lower_idempotent.
Qed.

End FormulationProps.
